(** * The document proxy of perfect-clean-lens: [/api/rag]

    A shallow embedding of the three route handlers [GET] (List), [POST]
    (UploadAndTrain) and [DELETE] (Delete) of the RAG knowledge-base route,
    and the properties of its specification that they meet or miss.

    Conventions of the embedding.
    - A JavaScript string is a [string] holding its characters; the code
      looks at strings only through [startsWith('storage/')], [slice(8)],
      [split('.')], concatenation, and [toLowerCase()] compared with ['pdf']
      and ['docx'].  [toLowerCase] is modelled on the letters A to Z: no
      other character lower-cases to a letter of ['pdf'] or ['docx'], so the
      comparisons are those of the code.
    - A value read from JSON is a [jsval]; [undefined] is [None] of
      [option jsval].  Its numbers are the integers: the handlers only test
      a number for zero and print it into a URL, as the double nearest to
      it.
    - The handlers are [async] functions awaiting [fetch] and reading the
      clock: they are trees of type [route], whose nodes are the remote
      calls, run against a [world] that answers them.  A rejected promise or
      a thrown [TypeError] is the node [Throw], which the handler's
      [try]/[catch] turns into a response; what [catch] writes to the
      console is left out. *)

From Stdlib Require Import String Ascii List ZArith Lia Bool DecimalString.
Import ListNotations.

Local Open Scope list_scope.
Local Open Scope string_scope.

Set Warnings "-register-all".

(** ** JavaScript strings *)

Module Js.

(** [s.startsWith(p)] *)
Definition startsWith (s p : string) : bool := String.prefix p s.

(** [s.slice(n)] for [n >= 0]: the string without its first [n] characters. *)
Fixpoint slice (n : nat) (s : string) : string :=
  match n, s with
  | O, _ => s
  | S _, EmptyString => EmptyString
  | S n', String _ s' => slice n' s'
  end.

(** [s.split(sep)] for a separator of one character: never empty. *)
Fixpoint split (sep : ascii) (s : string) : list string :=
  match s with
  | EmptyString => [EmptyString]
  | String c s' =>
      if Ascii.eqb c sep then EmptyString :: split sep s'
      else match split sep s' with
           | [] => [String c EmptyString]
           | seg :: segs => String c seg :: segs
           end
  end.

(** [a.pop()]: the last element, [undefined] on an empty array. *)
Fixpoint pop {A : Type} (a : list A) : option A :=
  match a with
  | [] => None
  | [x] => Some x
  | _ :: rest => pop rest
  end.

Definition is_upper (c : ascii) : bool :=
  let n := nat_of_ascii c in (65 <=? n)%nat && (n <=? 90)%nat.

Definition lower_char (c : ascii) : ascii :=
  if is_upper c then ascii_of_nat (nat_of_ascii c + 32) else c.

(** [s.toLowerCase()], on the letters A to Z. *)
Fixpoint toLowerCase (s : string) : string :=
  match s with
  | EmptyString => EmptyString
  | String c s' => String (lower_char c) (toLowerCase s')
  end.

(** Truthiness of a string: every string but the empty one. *)
Definition truthy_string (s : string) : bool :=
  match s with EmptyString => false | _ => true end.

End Js.

(** ** JavaScript numbers *)

Module Number.

(** The double nearest to a natural number, ties to even: the value of a
    number that JSON writes as that integer. *)
Definition to_double (n : Z) : Z :=
  let b := Z.log2 n in
  if (b <? 53)%Z then n
  else
    let q := (b - 52)%Z in
    let m := Z.shiftr n q in
    let r := (n - Z.shiftl m q)%Z in
    let half := Z.shiftl 1 (q - 1) in
    let m' := if (r <? half)%Z then m
              else if (half <? r)%Z then (m + 1)%Z
              else if Z.even m then m else (m + 1)%Z in
    Z.shiftl m' q.

(** The decimal digits of a natural number. *)
Definition digits (n : Z) : string :=
  NilZero.string_of_uint (N.to_uint (Z.to_N n)).

(** The shortest [s * 10^e] that reads back as the double [v], tried with
    k = 1, 2, ... digits; of two such [s], the nearer to [v], and the even
    one when they are as near. *)
Fixpoint shortest (fuel : nat) (k D v : Z) : Z * Z :=
  match fuel with
  | O => (v, 0%Z)
  | S fuel' =>
      let e := (D - k)%Z in
      let p := (10 ^ e)%Z in
      let s0 := (v / p)%Z in
      let lo := (s0 * p)%Z in
      let hi := ((s0 + 1) * p)%Z in
      let lower := (s0, e) in
      let upper := if (s0 + 1 =? 10 ^ k)%Z then (1%Z, (e + k)%Z)
                   else ((s0 + 1)%Z, e) in
      let lo_ok := (to_double lo =? v)%Z in
      let hi_ok := (to_double hi =? v)%Z in
      if lo_ok && hi_ok then
        if (v - lo <? hi - v)%Z then lower
        else if (hi - v <? v - lo)%Z then upper
        else if Z.even s0 then lower else upper
      else if lo_ok then lower
      else if hi_ok then upper
      else shortest fuel' (k + 1)%Z D v
  end.

Fixpoint zeros (n : nat) : string :=
  match n with O => EmptyString | S n' => String "0" (zeros n') end.

(** [Number::toString] of a double that is a natural number: its digits
    below 2^53, the shortest digits that read back as it from there on, in
    exponent form from 10^21 on. *)
Definition double_toString (v : Z) : string :=
  if (v <? 2 ^ 53)%Z then digits v
  else if (2 ^ 1024 <=? v)%Z then "Infinity"
  else
    let D := Z.of_nat (String.length (digits v)) in
    let '(s, e) := shortest (Z.to_nat D) 1 D v in
    let ds := digits s in
    let n := (Z.of_nat (String.length ds) + e)%Z in
    if (n <=? 21)%Z then ds ++ zeros (Z.to_nat e)
    else
      match ds with
      | EmptyString => EmptyString
      | String d EmptyString => String d ("e+" ++ digits (n - 1))
      | String d rest => String d ("." ++ rest ++ "e+" ++ digits (n - 1))
      end.

End Number.

(** [`${n}`] for the number that JSON writes as the integer [n]. *)
Definition Number_toString (n : Z) : string :=
  if (n <? 0)%Z then
    "-" ++ Number.double_toString (Number.to_double (- n))
  else Number.double_toString (Number.to_double n).

(** ** JSON values *)

Inductive jsval : Type :=
| JNull
| JBool (b : bool)
| JNum (n : Z)
| JStr (s : string)
| JArr (items : list jsval)
| JObj (fields : list (string * jsval)).

(** Own property [o.key] of a parsed JSON object: [undefined] when absent. *)
Fixpoint field (key : string) (fields : list (string * jsval)) : option jsval :=
  match fields with
  | [] => None
  | (k, v) :: rest => if String.eqb k key then Some v else field key rest
  end.

(** [!!v] for a value read from JSON. *)
Definition truthy (v : jsval) : bool :=
  match v with
  | JNull => false
  | JBool b => b
  | JNum n => negb (Z.eqb n 0)
  | JStr s => Js.truthy_string s
  | JArr _ => true
  | JObj _ => true
  end.

(** [`${v}`]: the string conversion of a template literal. *)
Fixpoint ToString (v : jsval) : string :=
  match v with
  | JNull => "null"
  | JBool true => "true"
  | JBool false => "false"
  | JNum n => Number_toString n
  | JStr s => s
  | JArr items =>
      (fix join (l : list jsval) : string :=
         match l with
         | [] => ""
         | x :: rest =>
             (match x with JNull => "" | _ => ToString x end)
             ++ (match rest with [] => "" | _ => "," ++ join rest end)
         end) items
  | JObj _ => "[object Object]"
  end.

(** ** The documents of a listing *)

Inductive file_type : Type := pdf | docx | txt.

Definition file_type_name (t : file_type) : string :=
  match t with pdf => "pdf" | docx => "docx" | txt => "txt" end.

Inductive doc_status : Type := processing | active | failed | deleted.

Definition doc_status_name (s : doc_status) : string :=
  match s with
  | processing => "processing" | active => "active"
  | failed => "failed" | deleted => "deleted"
  end.

Record RAGDocument : Type := mkDoc {
  fileName : string;
  fileType : file_type;
  status : doc_status
}.

Definition json_of_document (d : RAGDocument) : jsval :=
  JObj [("fileName", JStr (fileName d));
        ("fileType", JStr (file_type_name (fileType d)));
        ("status", JStr (doc_status_name (status d)))].

(** [docPath.startsWith('storage/') ? docPath.slice(8) : docPath] *)
Definition list_fileName (docPath : string) : string :=
  if Js.startsWith docPath "storage/" then Js.slice 8 docPath else docPath.

(** [fileName.split('.').pop()?.toLowerCase() || ''] *)
Definition list_ext (name : string) : string :=
  match Js.pop (Js.split "." name) with
  | Some seg =>
      let e := Js.toLowerCase seg in
      if Js.truthy_string e then e else ""
  | None => ""
  end.

Definition list_fileType (name : string) : file_type :=
  let ext := list_ext name in
  if String.eqb ext "pdf" then pdf
  else if String.eqb ext "docx" then docx
  else txt.

(** The callback of [rawDocuments.map] in [GET]. *)
Definition list_transform (docPath : string) : RAGDocument :=
  let name := list_fileName docPath in
  mkDoc name (list_fileType name) active.

(** ** Asynchronous handlers *)

(** The outcome of a promise: resolved with a value, or rejected with an
    error, of which the handlers read the [message] only. *)
Inductive settled (A : Type) : Type :=
| Resolved (a : A)
| Rejected (message : string).
Arguments Resolved {A} a.
Arguments Rejected {A} message.

Module File.
(** A [File] of a multipart body: [file.name], [file.type] and its bytes. *)
Record t : Type := make { name : string; type : string; bytes : string }.
End File.

(** A [FormData] entry value is a string or a [File]. *)
Inductive FormDataEntryValue : Type :=
| FormString (s : string)
| FormFile (f : File.t).

Definition FormData : Type := list (string * FormDataEntryValue).

(** [formData.get(name)] and [searchParams.get(name)]: the first entry of
    that name, [null] when there is none. *)
Fixpoint get {V : Type} (name : string) (entries : list (string * V)) : option V :=
  match entries with
  | [] => None
  | (k, v) :: rest => if String.eqb k name then Some v else get name rest
  end.

(** The [body] of an outgoing [fetch]: none, a [FormData], or
    [JSON.stringify(v)] of a value [v]. *)
Inductive fetch_body : Type :=
| NoBody
| FormBody (entries : FormData)
| JsonBody (v : jsval).

Record fetch_request : Type := mkFetch {
  url : string;
  method : string;
  headers : list (string * string);
  body : fetch_body
}.

Module Response.
(** What the handlers read of the [Response] of a remote call:
    [response.status], [response.statusText], and what [response.text()] and
    [response.json()] settle to. *)
Record t : Type := make {
  status : Z;
  statusText : string;
  text : settled string;
  json : settled jsval
}.

(** [response.ok] *)
Definition ok (r : t) : bool := (200 <=? status r)%Z && (status r <=? 299)%Z.
End Response.

(** The double quote, as a string. *)
Definition quote : string := String (ascii_of_nat 34) EmptyString.

Module NextResponse.
(** The reply of a handler: its JSON body and its HTTP status. *)
Record t : Type := make { body : jsval; status : Z }.

(** The statuses with which a response cannot have a body. *)
Definition null_body_status (s : Z) : bool :=
  (s =? 101)%Z || (s =? 103)%Z || (s =? 204)%Z || (s =? 205)%Z || (s =? 304)%Z.

(** The statuses [NextResponse.json] accepts: 200 to 599, those without a
    body apart. *)
Definition allows (s : Z) : bool :=
  (200 <=? s)%Z && (s <=? 599)%Z && negb (null_body_status s).

(** [NextResponse.json(body, { status })]: it throws a [RangeError] for a
    status outside 200 to 599 and a [TypeError] for a status without a
    body; the texts of the errors are those of undici. *)
Definition json (b : jsval) (s : Z) : settled t :=
  if negb ((200 <=? s)%Z && (s <=? 599)%Z) then
    Rejected ("init[" ++ quote ++ "status" ++ quote
              ++ "] must be in the range of 200 to 599, inclusive.")
  else if null_body_status s then
    Rejected ("Response constructor: Invalid response status code "
              ++ Number_toString s)
  else Resolved (make b s).

(** [NextResponse.json(body)] *)
Definition json_ok (b : jsval) : t := make b 200.
End NextResponse.

(** A handler: it returns, throws, awaits a [fetch] or reads
    [new Date().toISOString()]. *)
Inductive route (A : Type) : Type :=
| Return (a : A)
| Throw (message : string)
| Fetch (req : fetch_request) (k : settled Response.t -> route A)
| Now (k : string -> route A).
Arguments Return {A} a.
Arguments Throw {A} message.
Arguments Fetch {A} req k.
Arguments Now {A} k.

Fixpoint bind {A B : Type} (m : route A) (f : A -> route B) : route B :=
  match m with
  | Return a => f a
  | Throw e => Throw e
  | Fetch req k => Fetch req (fun r => bind (k r) f)
  | Now k => Now (fun t => bind (k t) f)
  end.

Notation "x <- m ;; k" := (bind m (fun x => k))
  (at level 61, m at next level, right associativity).

(** [try { m } catch (error) { h(error.message) }] *)
Fixpoint try_catch {A : Type} (m : route A) (h : string -> route A) : route A :=
  match m with
  | Return a => Return a
  | Throw e => h e
  | Fetch req k => Fetch req (fun r => try_catch (k r) h)
  | Now k => Now (fun t => try_catch (k t) h)
  end.

(** [await p] for a promise that has settled. *)
Definition await {A : Type} (p : settled A) : route A :=
  match p with
  | Resolved a => Return a
  | Rejected e => Throw e
  end.

(** [await fetch(url, { method, headers, body })] *)
Definition fetch (req : fetch_request) : route Response.t :=
  Fetch req await.

(** [new Date().toISOString()] *)
Definition toISOString_now : route string := Now Return.

(** [a.map(f)] for a callback that may throw. *)
Fixpoint array_map {A B : Type} (f : A -> route B) (a : list A) : route (list B) :=
  match a with
  | [] => Return []
  | x :: rest =>
      y <- f x ;;
      ys <- array_map f rest ;;
      Return (y :: ys)
  end.

(** The world a handler runs in: the remote service, which answers a call
    knowing the calls made before it, and the clock. *)
Record world : Type := mkWorld {
  remote : list fetch_request -> fetch_request -> settled Response.t;
  clock : string
}.

(** Running a handler: its outcome and the remote calls it made, in order. *)
Fixpoint run {A : Type} (w : world) (calls : list fetch_request) (m : route A)
  : settled A * list fetch_request :=
  match m with
  | Return a => (Resolved a, calls)
  | Throw e => (Rejected e, calls)
  | Fetch req k => run w (calls ++ [req])%list (k (remote w calls req))
  | Now k => run w calls (k (clock w))
  end.

(** ** The route handlers *)

Definition LYZR_RAG_BASE_URL : string := "https://rag-prod.studio.lyzr.ai/v3".

(** A value of [FILE_TYPE_CONFIG[key]]: its [type] and [parser], which are
    [undefined] on a value that the object literal inherits. *)
Record file_config : Type := mkConfig {
  config_type : option file_type;
  config_parser : option string
}.

(** The properties every object literal inherits from [Object.prototype]. *)
Definition Object_prototype_keys : list string :=
  ["constructor"; "__defineGetter__"; "__defineSetter__"; "hasOwnProperty";
   "__lookupGetter__"; "__lookupSetter__"; "isPrototypeOf";
   "propertyIsEnumerable"; "toString"; "valueOf"; "__proto__";
   "toLocaleString"].

(** [FILE_TYPE_CONFIG[key]]: the three own entries, then the inherited
    properties, which are truthy and have neither [type] nor [parser]. *)
Definition FILE_TYPE_CONFIG (key : string) : option file_config :=
  if String.eqb key "application/pdf"
  then Some (mkConfig (Some pdf) (Some "pypdf"))
  else if String.eqb key
            "application/vnd.openxmlformats-officedocument.wordprocessingml.document"
  then Some (mkConfig (Some docx) (Some "docx2txt"))
  else if String.eqb key "text/plain"
  then Some (mkConfig (Some txt) (Some "txt_parser"))
  else if existsb (String.eqb key) Object_prototype_keys
  then Some (mkConfig None None)
  else None.

(** [`${x}`] for a string that may be [undefined]. *)
Definition template (x : option string) : string :=
  match x with Some s => s | None => "undefined" end.

(** [!!v] for what [formData.get] returns. *)
Definition truthy_entry (v : option FormDataEntryValue) : bool :=
  match v with
  | None => false
  | Some (FormString s) => Js.truthy_string s
  | Some (FormFile _) => true
  end.

(** The value that passes a guard [if (!v) return ...]. *)
Definition required (v : option FormDataEntryValue) : option FormDataEntryValue :=
  if truthy_entry v then v else None.

(** [file.type] and [file.name]: [undefined] on a string. *)
Definition entry_type (v : FormDataEntryValue) : option string :=
  match v with FormFile f => Some (File.type f) | FormString _ => None end.

Definition entry_name (v : FormDataEntryValue) : option string :=
  match v with FormFile f => Some (File.name f) | FormString _ => None end.

(** [`${v}`] and [JSON.stringify(v)] of an entry value: a [File] has no
    enumerable property of its own. *)
Definition entry_ToString (v : FormDataEntryValue) : string :=
  match v with FormString s => s | FormFile _ => "[object File]" end.

Definition entry_json (v : FormDataEntryValue) : jsval :=
  match v with FormString s => JStr s | FormFile _ => JObj [] end.

(** An object literal some of whose values may be [undefined]: such
    properties are not serialised. *)
Fixpoint object (props : list (string * option jsval)) : list (string * jsval) :=
  match props with
  | [] => []
  | (k, Some v) :: rest => (k, v) :: object rest
  | (_, None) :: rest => object rest
  end.

Definition config_error : NextResponse.t :=
  NextResponse.make
    (JObj [("success", JBool false);
           ("error", JStr "LYZR_API_KEY not configured in .env.local")])
    500.

(** The texts of the [TypeError]s below are those of V8. *)
Definition not_a_function (what : string) : string := what ++ " is not a function".

Definition reading_null (prop : string) : string :=
  "Cannot read properties of null (reading '" ++ prop ++ "')".

(** The callback of [rawDocuments.map] applied to a value of the remote's
    array: only a string has a [startsWith] to call. *)
Definition list_callback (docPath : jsval) : route RAGDocument :=
  match docPath with
  | JStr s => Return (list_transform s)
  | JNull => Throw (reading_null "startsWith")
  | _ => Throw (not_a_function "docPath.startsWith")
  end.

(** [doc.startsWith('storage/') ? doc : `storage/${doc}`] *)
Definition delete_format (doc : string) : string :=
  if Js.startsWith doc "storage/" then doc else "storage/" ++ doc.

(** The callback of [documents.map] in [DELETE]. *)
Definition delete_callback (doc : jsval) : route string :=
  match doc with
  | JStr s => Return (delete_format s)
  | JNull => Throw (reading_null "startsWith")
  | _ => Throw (not_a_function "doc.startsWith")
  end.

(** The form sent to the parse endpoint: the file, [data_parser],
    [extra_info], and the chunking parameters for the type [pdf]. *)
Definition parseFormData (file : FormDataEntryValue) (fileConfig : file_config)
  : FormData :=
  ([("file", file);
    ("data_parser", FormString (template (config_parser fileConfig)));
    ("extra_info", FormString "{}")]
   ++ match config_type fileConfig with
      | Some pdf => [("chunk_size", FormString "1000");
                     ("chunk_overlap", FormString "100")]
      | _ => []
      end)%list.

(** The call of [GET]:
    [fetch(`${LYZR_RAG_BASE_URL}/rag/documents/${ragId}/`, { method: 'GET', headers })] *)
Definition documents_request (key ragId : string) : fetch_request :=
  mkFetch (LYZR_RAG_BASE_URL ++ "/rag/documents/" ++ ragId ++ "/")
    "GET"
    [("Accept", "application/json"); ("x-api-key", key)]
    NoBody.

(** The first call of [POST]:
    [fetch(`${LYZR_RAG_BASE_URL}/parse/${fileConfig.type}/`, { method: 'POST', headers, body: parseFormData })] *)
Definition parse_request (key : string) (file : FormDataEntryValue)
    (fileConfig : file_config) : fetch_request :=
  mkFetch (LYZR_RAG_BASE_URL ++ "/parse/"
           ++ template (option_map file_type_name (config_type fileConfig))
           ++ "/")
    "POST"
    [("x-api-key", key)]
    (FormBody (parseFormData file fileConfig)).

(** The second call of [POST]:
    [fetch(`${LYZR_RAG_BASE_URL}/rag/train/${ragId}/`, { method: 'POST', headers, body: JSON.stringify(parseResult.documents) })] *)
Definition train_request (key : string) (ragId : FormDataEntryValue)
    (chunks : list jsval) : fetch_request :=
  mkFetch (LYZR_RAG_BASE_URL ++ "/rag/train/" ++ entry_ToString ragId ++ "/")
    "POST"
    [("Accept", "application/json");
     ("Content-Type", "application/json");
     ("x-api-key", key)]
    (JsonBody (JArr chunks)).

(** The call of [DELETE]:
    [fetch(`${LYZR_RAG_BASE_URL}/rag/${ragId}/docs/`, { method: 'DELETE', headers, body: JSON.stringify(formattedDocuments) })] *)
Definition delete_request (key : string) (ragId : jsval)
    (formattedDocuments : list string) : fetch_request :=
  mkFetch (LYZR_RAG_BASE_URL ++ "/rag/" ++ ToString ragId ++ "/docs/")
    "DELETE"
    [("Accept", "application/json");
     ("Content-Type", "application/json");
     ("x-api-key", key)]
    (JsonBody (JArr (map JStr formattedDocuments))).

Section Handlers.

(** [process.env.LYZR_API_KEY]: [undefined] when the variable is not set. *)
Variable LYZR_API_KEY : option string.

(** [GET /api/rag?ragId={id}]; the request is its search parameters. *)
Definition GET (searchParams : list (string * string)) : route NextResponse.t :=
  try_catch
    (match LYZR_API_KEY with
     | Some ((String _ _) as key) =>
         match get "ragId" searchParams with
         | Some ((String _ _) as ragId) =>
             response <- fetch (documents_request key ragId) ;;
             if negb (Response.ok response) then
               if (Response.status response =? 404)%Z then
                 Return (NextResponse.json_ok
                           (JObj [("success", JBool true);
                                  ("documents", JArr [])]))
               else
                 errorText <- await (Response.text response) ;;
                 await (NextResponse.json
                           (JObj [("success", JBool false);
                                  ("error", JStr ("Failed to fetch documents: "
                                                  ++ Response.statusText response));
                                  ("details", JStr errorText)])
                           (Response.status response))
             else
               rawDocuments <- await (Response.json response) ;;
               documents <- match rawDocuments with
                            | JArr items => array_map list_callback items
                            | _ => Return []
                            end ;;
               timestamp <- toISOString_now ;;
               Return (NextResponse.json_ok
                         (JObj [("success", JBool true);
                                ("documents", JArr (map json_of_document documents));
                                ("ragId", JStr ragId);
                                ("timestamp", JStr timestamp)]))
         | _ =>
             await (NextResponse.json
                       (JObj [("success", JBool false);
                              ("error", JStr "ragId is required as a query parameter")])
                       400)
         end
     | _ =>
         await (NextResponse.json
                  (JObj [("success", JBool false);
                         ("error", JStr "LYZR_API_KEY not configured in .env.local")])
                  500)
     end)
    (fun message =>
       await (NextResponse.json
                 (JObj [("success", JBool false);
                        ("error", JStr "Failed to fetch documents");
                        ("details", JStr message)])
                 500)).

(** [parseResult.documents]: a property read, which throws on [null]. *)
Definition parseResult_documents (parseResult : jsval) : route (option jsval) :=
  match parseResult with
  | JNull => Throw (reading_null "documents")
  | JObj fields => Return (field "documents" fields)
  | _ => Return None
  end.

(** [POST /api/rag]; the request is what [request.formData()] settles to. *)
Definition POST (request : settled FormData) : route NextResponse.t :=
  try_catch
    (match LYZR_API_KEY with
     | Some ((String _ _) as key) =>
         formData <- await request ;;
         match required (get "file" formData) with
         | None =>
             await (NextResponse.json
                       (JObj [("success", JBool false);
                              ("error", JStr "file is required")])
                       400)
         | Some file =>
             match required (get "ragId" formData) with
             | None =>
                 await (NextResponse.json
                           (JObj [("success", JBool false);
                                  ("error", JStr "ragId is required")])
                           400)
             | Some ragId =>
                 match FILE_TYPE_CONFIG (template (entry_type file)) with
                 | None =>
                     await (NextResponse.json
                               (JObj [("success", JBool false);
                                      ("error", JStr ("Unsupported file type: "
                                                      ++ template (entry_type file)
                                                      ++ ". Only PDF, DOCX, and TXT files are supported."))])
                               400)
                 | Some fileConfig =>
                     parseResponse <- fetch (parse_request key file fileConfig) ;;
                     if negb (Response.ok parseResponse) then
                       errorText <- await (Response.text parseResponse) ;;
                       await (NextResponse.json
                                 (JObj [("success", JBool false);
                                        ("error", JStr ("Document parsing failed: "
                                                        ++ Response.statusText parseResponse));
                                        ("details", JStr errorText)])
                                 500)
                     else
                       parseResult <- await (Response.json parseResponse) ;;
                       documents <- parseResult_documents parseResult ;;
                       match documents with
                       | Some (JArr chunks) =>
                           trainResponse <- fetch (train_request key ragId chunks) ;;
                           if negb (Response.ok trainResponse) then
                             errorText <- await (Response.text trainResponse) ;;
                             await (NextResponse.json
                                       (JObj [("success", JBool false);
                                              ("error", JStr ("Knowledge base training failed: "
                                                              ++ Response.statusText trainResponse));
                                              ("details", JStr errorText)])
                                       500)
                           else
                             timestamp <- toISOString_now ;;
                             Return (NextResponse.json_ok
                                       (JObj (object
                                          [("success", Some (JBool true));
                                           ("message", Some (JStr "Document uploaded and trained successfully"));
                                           ("fileName", option_map JStr (entry_name file));
                                           ("fileType", option_map (fun t => JStr (file_type_name t))
                                                          (config_type fileConfig));
                                           ("documentCount", Some (JNum (Z.of_nat (List.length chunks))));
                                           ("ragId", Some (entry_json ragId));
                                           ("timestamp", Some (JStr timestamp))])))
                       | _ =>
                           await (NextResponse.json
                                     (JObj [("success", JBool false);
                                            ("error", JStr "Invalid response format from document parsing")])
                                     500)
                       end
                 end
             end
         end
     | _ =>
         await (NextResponse.json
                  (JObj [("success", JBool false);
                         ("error", JStr "LYZR_API_KEY not configured in .env.local")])
                  500)
     end)
    (fun message =>
       await (NextResponse.json
                 (JObj [("success", JBool false);
                        ("error", JStr "Failed to upload and train document");
                        ("details", JStr message)])
                 500)).

(** [const { ragId, documents } = body]: destructuring throws on [null]
    and finds nothing on a value that is not an object. *)
Definition destructure_body (body : jsval) : route (option jsval * option jsval) :=
  match body with
  | JNull => Throw "Cannot destructure property 'ragId' of 'body' as it is null."
  | JObj fields => Return (field "ragId" fields, field "documents" fields)
  | _ => Return (None, None)
  end.

(** [DELETE /api/rag]; the request is what [request.json()] settles to. *)
Definition DELETE (request : settled jsval) : route NextResponse.t :=
  try_catch
    (match LYZR_API_KEY with
     | Some ((String _ _) as key) =>
         body <- await request ;;
         props <- destructure_body body ;;
         let '(ragId, documents) := props in
         match ragId with
         | Some ragId =>
             if negb (truthy ragId) then
               await (NextResponse.json
                         (JObj [("success", JBool false);
                                ("error", JStr "ragId is required")])
                         400)
             else
               match documents with
               | Some (JArr ((_ :: _) as documents)) =>
                   formattedDocuments <- array_map delete_callback documents ;;
                   response <- fetch (delete_request key ragId formattedDocuments) ;;
                   if negb (Response.ok response) then
                     let errorText :=
                       match Response.text response with
                       | Resolved t => t
                       | Rejected _ => "Unknown error"
                       end in
                     await (NextResponse.json
                               (JObj [("success", JBool false);
                                      ("error", JStr ("Failed to delete documents: "
                                                      ++ Response.statusText response));
                                      ("details", JStr errorText)])
                               (Response.status response))
                   else
                     timestamp <- toISOString_now ;;
                     Return (NextResponse.json_ok
                               (JObj [("success", JBool true);
                                      ("message", JStr "Documents deleted successfully");
                                      ("deletedCount", JNum (Z.of_nat (List.length documents)));
                                      ("ragId", ragId);
                                      ("timestamp", JStr timestamp)]))
               | _ =>
                   await (NextResponse.json
                             (JObj [("success", JBool false);
                                    ("error", JStr "documents array is required and must not be empty")])
                             400)
               end
         | None =>
             await (NextResponse.json
                       (JObj [("success", JBool false);
                              ("error", JStr "ragId is required")])
                       400)
         end
     | _ =>
         await (NextResponse.json
                  (JObj [("success", JBool false);
                         ("error", JStr "LYZR_API_KEY not configured in .env.local")])
                  500)
     end)
    (fun message =>
       await (NextResponse.json
                 (JObj [("success", JBool false);
                        ("error", JStr "Failed to delete documents");
                        ("details", JStr message)])
                 500)).

End Handlers.

(** ** What the specification says, in its own words *)

(** The extension of a file name: the text after its last ['.'], none when
    the name has no ['.']. *)
Fixpoint spec_extension (name : string) : option string :=
  match name with
  | EmptyString => None
  | String c rest =>
      match spec_extension rest with
      | Some e => Some e
      | None => if Ascii.eqb c "." then Some rest else None
      end
  end.

(** The type the specification gives to an extension: [.pdf] is [pdf],
    [.docx] is [docx], anything else is [txt]. *)
Definition spec_type_of_ext (ext : string) : file_type :=
  if String.eqb ext "pdf" then pdf
  else if String.eqb ext "docx" then docx
  else txt.

(** The type the specification gives to a file name: that of its extension,
    [txt] when it has none. *)
Definition spec_fileType (name : string) : file_type :=
  match spec_extension name with
  | Some ext => spec_type_of_ext ext
  | None => txt
  end.

(** A name carries exactly one ['storage/'] prefix: it starts with one, and
    what follows it does not start with another. *)
Definition exactly_one_prefix (name : string) : bool :=
  Js.startsWith name "storage/" && negb (Js.startsWith (Js.slice 8 name) "storage/").

(** The names of the properties of a response body. *)
Definition keys (v : jsval) : list string :=
  match v with
  | JObj fields => map fst fields
  | _ => []
  end.

(** [v.key] for a response body. *)
Definition prop (key : string) (v : jsval) : option jsval :=
  match v with
  | JObj fields => field key fields
  | _ => None
  end.

(** What the specification says of one listed path, with the extension
    compared without regard to case. *)
Definition listed_as_specified (docPath : string) (d : RAGDocument) : Prop :=
  (forall rest, docPath = "storage/" ++ rest -> fileName d = rest)
  /\ (Js.startsWith docPath "storage/" = false -> fileName d = docPath)
  /\ (forall ext, spec_extension (fileName d) = Some ext ->
        fileType d = spec_type_of_ext (Js.toLowerCase ext))
  /\ (spec_extension (fileName d) = None ->
        Js.toLowerCase (fileName d) <> "pdf" ->
        Js.toLowerCase (fileName d) <> "docx" ->
        fileType d = txt)
  /\ status d = active.

(** The parser the specification fixes for each supported MIME type. *)
Definition spec_parser (mime : string) : option string :=
  if String.eqb mime "application/pdf" then Some "pypdf"
  else if String.eqb mime
            "application/vnd.openxmlformats-officedocument.wordprocessingml.document"
  then Some "docx2txt"
  else if String.eqb mime "text/plain" then Some "txt_parser"
  else None.

(** A world that answers the remote calls from a script, in order, and
    rejects the calls past its end. *)
Definition scripted (answers : list (settled Response.t)) (now : string) : world :=
  mkWorld
    (fun calls _ => nth (List.length calls) answers (Rejected "fetch failed"))
    now.

(** An upload of a [text/plain] file to the knowledge base [kb1]. *)
Definition example_upload : FormData :=
  [("file", FormFile (File.make "notes.txt" "text/plain" "hello"));
   ("ragId", FormString "kb1")].

(** ** What holds on every run of a handler *)

(** [bounded n Q E P m]: whatever the world answers, [m] awaits at most [n]
    remote calls, each of which satisfies [P]; what it returns satisfies
    [Q], and what it throws satisfies [E]. *)
Inductive bounded {A : Type} (Q : A -> Prop) (E : string -> Prop)
    (P : fetch_request -> Prop) : nat -> route A -> Prop :=
| bounded_Return (n : nat) (a : A) :
    Q a -> bounded Q E P n (Return a)
| bounded_Throw (n : nat) (e : string) :
    E e -> bounded Q E P n (Throw e)
| bounded_Fetch (n : nat) (req : fetch_request)
    (k : settled Response.t -> route A) :
    P req -> (forall r, bounded Q E P n (k r)) ->
    bounded Q E P (S n) (Fetch req k)
| bounded_Now (n : nat) (k : string -> route A) :
    (forall t, bounded Q E P n (k t)) -> bounded Q E P n (Now k).

(** [response.ok] as a test on the status. *)
Definition status_ok (s : Z) : bool := (200 <=? s)%Z && (s <=? 299)%Z.

(** A reply of the route: [success] is [true] with status 200, or [false]
    with a status that is not 2xx and an [error] that is a string and not
    empty. *)
Definition reply_well_formed (res : NextResponse.t) : Prop :=
  (prop "success" (NextResponse.body res) = Some (JBool true)
   /\ NextResponse.status res = 200%Z)
  \/ (prop "success" (NextResponse.body res) = Some (JBool false)
      /\ status_ok (NextResponse.status res) = false
      /\ exists e, prop "error" (NextResponse.body res) = Some (JStr e)
                   /\ Js.truthy_string e = true).

(** A remote call made under the credential [key]: it carries the
    credential in [x-api-key], and the URL text that the handler hands to
    [fetch] begins with [LYZR_RAG_BASE_URL].  This is the text as written,
    with [ragId] pasted in unescaped: what [fetch] makes of the path after
    the prefix (dot segments and the like) is not part of it. *)
Definition sent_with (key : option string) (req : fetch_request) : Prop :=
  get "x-api-key" (headers req) = key
  /\ Js.startsWith (url req) LYZR_RAG_BASE_URL = true.

(** A reply of [POST]: well formed, with status 200, 400 or 500. *)
Definition upload_reply_well_formed (res : NextResponse.t) : Prop :=
  reply_well_formed res
  /\ (NextResponse.status res = 200%Z
      \/ NextResponse.status res = 400%Z
      \/ NextResponse.status res = 500%Z).

(** [NextResponse.json({ success: false, error }, { status: 400 })] *)
Definition reply_400 (error : string) : NextResponse.t :=
  NextResponse.make (JObj [("success", JBool false); ("error", JStr error)]) 400.

(** [NextResponse.json({ success: false, error, details }, { status: 500 })],
    the reply of the [catch] of a handler. *)
Definition reply_500 (error details : string) : NextResponse.t :=
  NextResponse.make
    (JObj [("success", JBool false);
           ("error", JStr error);
           ("details", JStr details)])
    500.

(** A value that is not a string. *)
Definition not_a_string (v : jsval) : Prop :=
  match v with JStr _ => False | _ => True end.

(** ** The client of the route *)

(** The browser-side wrapper of the route: its calls go to [API_ROUTE];
    their answers are [Response.t] as for the remote calls of the handlers,
    and the functions are [route]s run against the [world] of the browser. *)

Definition API_ROUTE : string := "/api/rag".

Definition SUPPORTED_FILE_TYPES : list string :=
  ["application/pdf";
   "application/vnd.openxmlformats-officedocument.wordprocessingml.document";
   "text/plain"].

(** [SUPPORTED_FILE_TYPES.includes(fileType)] *)
Definition isFileTypeSupported (fileType : string) : bool :=
  existsb (String.eqb fileType) SUPPORTED_FILE_TYPES.

(** The [switch] of [getFileTypeFromMime]; [null] is [None]. *)
Definition getFileTypeFromMime (mimeType : string) : option file_type :=
  if String.eqb mimeType "application/pdf" then Some pdf
  else if String.eqb mimeType
            "application/vnd.openxmlformats-officedocument.wordprocessingml.document"
  then Some docx
  else if String.eqb mimeType "text/plain" then Some txt
  else None.

(** [{ isValid, error? }] *)
Record validation : Type := mkValidation {
  isValid : bool;
  validation_error : option string
}.

Definition validateFile (file : File.t) : validation :=
  if negb (isFileTypeSupported (File.type file)) then
    mkValidation false
      (Some ("Unsupported file type: " ++ File.type file
             ++ ". Only PDF, DOCX, and TXT files are supported."))
  else mkValidation true None.

(** The characters [encodeURIComponent] leaves as they are. *)
Definition is_unreserved (c : ascii) : bool :=
  let n := nat_of_ascii c in
  ((65 <=? n)%nat && (n <=? 90)%nat)
  || ((97 <=? n)%nat && (n <=? 122)%nat)
  || ((48 <=? n)%nat && (n <=? 57)%nat)
  || existsb (Ascii.eqb c) ["-"; "_"; "."; "!"; "~"; "*"; "'"; "("; ")"]%char.

Definition hex_digit (n : nat) : ascii :=
  nth n (list_ascii_of_string "0123456789ABCDEF") "0"%char.

(** [encodeURIComponent(s)]: every other character is escaped as [%XX],
    byte by byte of its UTF-8 encoding, which is how a [string] holds a
    character outside ASCII here. *)
Fixpoint encodeURIComponent (s : string) : string :=
  match s with
  | EmptyString => EmptyString
  | String c rest =>
      if is_unreserved c then String c (encodeURIComponent rest)
      else
        let n := nat_of_ascii c in
        String "%" (String (hex_digit (n / 16)) (String (hex_digit (n mod 16))
          (encodeURIComponent rest)))
  end.

(** What a function of the client resolves to: the [data] the route
    answered, or the object [{ success: false, error, details }] that the
    function builds, whose [error] and [details] may be [undefined]. *)
Inductive api_result : Type :=
| Data (data : jsval)
| Failure (error : option jsval) (details : option jsval).

(** [v.name], a property read, which throws on [null]. *)
Definition read_property (name : string) (v : jsval) : route (option jsval) :=
  match v with
  | JNull => Throw (reading_null name)
  | JObj fields => Return (field name fields)
  | _ => Return None
  end.

(** [v || d] *)
Definition or_else (v : option jsval) (d : jsval) : jsval :=
  match v with
  | Some x => if truthy x then x else d
  | None => d
  end.

(** The lines the three functions share after their [fetch]:
    [if (response.ok) { return await response.json() } else { ... }]. *)
Definition read_response (response : Response.t) : route api_result :=
  if Response.ok response then
    data <- await (Response.json response) ;;
    Return (Data data)
  else
    let errorData :=
      match Response.json response with
      | Resolved v => v
      | Rejected _ => JObj [("error", JStr "Unknown error")]
      end in
    error <- read_property "error" errorData ;;
    details <- read_property "details" errorData ;;
    Return (Failure
              (Some (or_else error
                       (JStr ("API returned status "
                              ++ Number_toString (Response.status response)))))
              details).

(** The [catch] of the three functions. *)
Definition client_catch (error : string) (message : string) : route api_result :=
  Return (Failure (Some (JStr error)) (Some (JStr message))).

(** [fetch(`${API_ROUTE}?ragId=${encodeURIComponent(ragId)}`, { method: 'GET', headers })] *)
Definition getDocuments_request (ragId : string) : fetch_request :=
  mkFetch (API_ROUTE ++ "?ragId=" ++ encodeURIComponent ragId)
    "GET"
    [("Content-Type", "application/json")]
    NoBody.

Definition getDocuments (ragId : string) : route api_result :=
  try_catch
    (if negb (Js.truthy_string ragId) then
       Return (Failure (Some (JStr "ragId is required")) None)
     else
       response <- fetch (getDocuments_request ragId) ;;
       read_response response)
    (client_catch "Failed to get documents").

(** [fetch(API_ROUTE, { method: 'POST', body: formData })] *)
Definition uploadAndTrainDocument_request (ragId : string) (file : File.t)
  : fetch_request :=
  mkFetch API_ROUTE "POST" []
    (FormBody [("file", FormFile file); ("ragId", FormString ragId)]).

Definition uploadAndTrainDocument (ragId : string) (file : File.t)
  : route api_result :=
  try_catch
    (if negb (Js.truthy_string ragId) then
       Return (Failure (Some (JStr "ragId is required")) None)
     else
       let validation := validateFile file in
       if negb (isValid validation) then
         Return (Failure (option_map JStr (validation_error validation)) None)
       else
         response <- fetch (uploadAndTrainDocument_request ragId file) ;;
         read_response response)
    (client_catch "Failed to upload document").

(** [fetch(API_ROUTE, { method: 'DELETE', headers, body: JSON.stringify({ ragId, documents }) })] *)
Definition deleteDocuments_request (ragId : string) (documents : list string)
  : fetch_request :=
  mkFetch API_ROUTE "DELETE"
    [("Content-Type", "application/json")]
    (JsonBody (JObj [("ragId", JStr ragId);
                     ("documents", JArr (map JStr documents))])).

Definition deleteDocuments (ragId : string) (documents : list string)
  : route api_result :=
  try_catch
    (if negb (Js.truthy_string ragId) then
       Return (Failure (Some (JStr "ragId is required")) None)
     else
       match documents with
       | [] =>
           Return (Failure
                     (Some (JStr "documents array is required and must not be empty"))
                     None)
       | _ :: _ =>
           response <- fetch (deleteDocuments_request ragId documents) ;;
           read_response response
       end)
    (client_catch "Failed to delete documents").

(** A call of the client: it goes to the route and carries no
    credential. *)
Definition sent_to_route (req : fetch_request) : Prop :=
  Js.startsWith (url req) API_ROUTE = true
  /\ get "x-api-key" (headers req) = None.

(** The answer of the route as the browser receives it: the status and
    the JSON body of the reply of the handler. *)
Definition delivers (res : NextResponse.t) (response : Response.t) : Prop :=
  Response.status response = NextResponse.status res
  /\ Response.json response = Resolved (NextResponse.body res).

(** What the client makes of a reply of the route. *)
Definition result_of_reply (res : NextResponse.t) : api_result :=
  if status_ok (NextResponse.status res) then Data (NextResponse.body res)
  else Failure (prop "error" (NextResponse.body res))
               (prop "details" (NextResponse.body res)).

(** A failure built by the client names its error. *)
Definition result_well_formed (r : api_result) : Prop :=
  match r with
  | Data _ => True
  | Failure error _ => error <> None
  end.

(** ** Strings *)

Lemma prefix_app (a b s : string) :
  String.prefix (a ++ b) s
  = String.prefix a s && String.prefix b (Js.slice (String.length a) s).
Proof.
  revert s; induction a as [|c a IH]; intros s; simpl.
  - destruct s; reflexivity.
  - destruct s as [|d s]; simpl; [reflexivity|].
    destruct (Ascii.ascii_dec c d); [apply IH | reflexivity].
Qed.

Lemma prefix_self_app (a s : string) : String.prefix a (a ++ s) = true.
Proof.
  induction a as [|c a IH]; simpl.
  - destruct s; reflexivity.
  - destruct (Ascii.ascii_dec c c); [exact IH | congruence].
Qed.

Lemma slice_app (a s : string) : Js.slice (String.length a) (a ++ s) = s.
Proof. induction a as [|c a IH]; simpl; [reflexivity | exact IH]. Qed.

Lemma prefix_split (a s : string) :
  String.prefix a s = true -> s = a ++ Js.slice (String.length a) s.
Proof.
  revert s; induction a as [|c a IH]; intros s H.
  - reflexivity.
  - destruct s as [|d s]; simpl in *; [discriminate|].
    destruct (Ascii.ascii_dec c d) as [->|]; [|discriminate].
    f_equal; apply IH; exact H.
Qed.

Lemma length_slice (n : nat) (s : string) :
  String.length (Js.slice n s) = (String.length s - n)%nat.
Proof.
  revert s; induction n as [|n IH]; intros s; simpl.
  - lia.
  - destruct s as [|c s]; simpl; [reflexivity | apply IH].
Qed.

Lemma prefix_length (a s : string) :
  String.prefix a s = true -> (String.length a <= String.length s)%nat.
Proof.
  revert s; induction a as [|c a IH]; intros s H; [simpl; lia|].
  destruct s as [|d s]; simpl in *; [discriminate|].
  destruct (Ascii.ascii_dec c d); [|discriminate].
  apply IH in H; lia.
Qed.

(** Stripping the prefix returns the name itself exactly when there is no
    prefix to strip. *)
Lemma list_fileName_fixed (docPath : string) :
  list_fileName docPath = docPath <-> Js.startsWith docPath "storage/" = false.
Proof.
  unfold list_fileName.
  destruct (Js.startsWith docPath "storage/") eqn:E; split; intro H;
    try reflexivity; try discriminate.
  exfalso.
  apply (f_equal String.length) in H.
  rewrite length_slice in H.
  apply prefix_length in E; simpl in E; lia.
Qed.

(** The stripped name starts with the prefix exactly when the path starts
    with two of them. *)
Lemma list_fileName_prefixed (docPath : string) :
  Js.startsWith (list_fileName docPath) "storage/"
  = Js.startsWith docPath "storage/storage/".
Proof.
  unfold list_fileName, Js.startsWith.
  change "storage/storage/" with ("storage/" ++ "storage/").
  rewrite prefix_app.
  change (String.length "storage/") with 8%nat.
  destruct (String.prefix "storage/" docPath) eqn:E; simpl;
    [reflexivity | exact E].
Qed.

Lemma split_shape (name : string) :
  match spec_extension name with
  | None => Js.split "." name = [name]
  | Some e => exists seg segs,
      Js.split "." name = seg :: segs /\ segs <> [] /\ Js.pop segs = Some e
  end.
Proof.
  induction name as [|c rest IH]; simpl; [reflexivity|].
  destruct (spec_extension rest) as [e|].
  - destruct IH as (seg & segs & Hs & Hne & Hp); rewrite Hs.
    destruct (Ascii.eqb c ".").
    + exists EmptyString, (seg :: segs); repeat split; [discriminate|].
      simpl; destruct segs; [congruence | exact Hp].
    + exists (String c seg), segs; repeat split; assumption.
  - rewrite IH.
    destruct (Ascii.eqb c "."); [|reflexivity].
    exists EmptyString, [rest]; repeat split; discriminate.
Qed.

(** [fileName.split('.').pop()] is the extension of a name that has one, and
    the whole name otherwise. *)
Lemma pop_split (name : string) :
  Js.pop (Js.split "." name)
  = Some (match spec_extension name with Some e => e | None => name end).
Proof.
  pose proof (split_shape name) as H.
  destruct (spec_extension name) as [e|].
  - destruct H as (seg & segs & -> & Hne & Hp).
    simpl; destruct segs; [congruence | exact Hp].
  - rewrite H; reflexivity.
Qed.

(** [e || ''] is [e]: the only falsy string is the empty one. *)
Lemma or_empty (e : string) :
  (if Js.truthy_string e then e else "") = e.
Proof. destruct e; reflexivity. Qed.

(** The type [GET] gives to a name is the type of the lower-cased last
    segment of the name. *)
Lemma list_fileType_eq (name : string) :
  list_fileType name
  = spec_type_of_ext
      (Js.toLowerCase
         (match spec_extension name with Some e => e | None => name end)).
Proof.
  unfold list_fileType, list_ext, spec_type_of_ext.
  rewrite pop_split.
  cbv zeta.
  rewrite or_empty.
  reflexivity.
Qed.

(** ** Running the handlers *)

Lemma array_map_list_strings (paths : list string) :
  array_map list_callback (map JStr paths) = Return (map list_transform paths).
Proof.
  induction paths as [|p paths IH]; simpl; [reflexivity|].
  rewrite IH; reflexivity.
Qed.

Lemma array_map_delete_strings (names : list string) :
  array_map delete_callback (map JStr names) = Return (map delete_format names).
Proof.
  induction names as [|n names IH]; simpl; [reflexivity|].
  rewrite IH; reflexivity.
Qed.

(** The callback of [GET] awaits nothing: mapping it returns or throws. *)
Lemma array_map_list_settles (items : list jsval) :
  (exists docs, array_map list_callback items = Return docs)
  \/ (exists e, array_map list_callback items = Throw e).
Proof.
  induction items as [|x items IH]; simpl.
  - left; eexists; reflexivity.
  - destruct x; simpl; try (right; eexists; reflexivity).
    destruct IH as [[docs ->] | [e ->]]; simpl;
      [left | right]; eexists; reflexivity.
Qed.

(** One step of a handler that awaits a remote call inside its [try]. *)
Lemma run_fetch {B : Type} (w : world) (calls : list fetch_request)
    (req : fetch_request) (k : Response.t -> route B)
    (h : string -> route B) :
  run w calls (try_catch (bind (fetch req) k) h)
  = run w (calls ++ [req])%list
      (try_catch (bind (await (remote w calls req)) k) h).
Proof. reflexivity. Qed.

(** What [NextResponse.json] resolves to is the reply it was asked for. *)
Lemma json_resolved (b : jsval) (s : Z) (r : NextResponse.t) :
  NextResponse.json b s = Resolved r -> r = NextResponse.make b s.
Proof.
  unfold NextResponse.json.
  destruct (negb _); [discriminate|].
  destruct (NextResponse.null_body_status s); [discriminate|].
  intros H; injection H as <-; reflexivity.
Qed.

(** [NextResponse.json] makes the reply for a status it accepts. *)
Lemma json_allowed (b : jsval) (s : Z) :
  NextResponse.allows s = true ->
  NextResponse.json b s = Resolved (NextResponse.make b s).
Proof.
  unfold NextResponse.allows, NextResponse.json; intros H.
  apply andb_true_iff in H; destruct H as [Hrange Hbody].
  rewrite Hrange; apply negb_true_iff in Hbody; rewrite Hbody.
  reflexivity.
Qed.

(** ** List *)

Lemma list_transform_as_specified (docPath : string) :
  listed_as_specified docPath (list_transform docPath).
Proof.
  unfold listed_as_specified, list_transform; cbn [fileName fileType status].
  repeat split.
  - intros rest ->.
    unfold list_fileName, Js.startsWith.
    rewrite prefix_self_app.
    exact (slice_app "storage/" rest).
  - intros H; unfold list_fileName; rewrite H; reflexivity.
  - intros ext H; rewrite list_fileType_eq, H; reflexivity.
  - intros H Hpdf Hdocx; rewrite list_fileType_eq, H.
    unfold spec_type_of_ext.
    destruct (String.eqb_spec (Js.toLowerCase (list_fileName docPath)) "pdf");
      [contradiction|].
    destruct (String.eqb_spec (Js.toLowerCase (list_fileName docPath)) "docx");
      [contradiction|].
    reflexivity.
Qed.

Section List.

Variable w : world.
Variables key ragId : string.
Variable searchParams : list (string * string).
Variable response : Response.t.

Hypothesis key_configured : Js.truthy_string key = true.
Hypothesis ragId_given : get "ragId" searchParams = Some ragId.
Hypothesis ragId_not_empty : Js.truthy_string ragId = true.
Hypothesis remote_answers :
  remote w [] (documents_request key ragId) = Resolved response.

(** [GET] up to the answer of the remote listing. *)
Ltac GET_awaits_listing :=
  destruct key; [discriminate key_configured|];
  destruct ragId; [discriminate ragId_not_empty|];
  unfold GET; rewrite ragId_given, run_fetch, remote_answers;
  cbn [await bind try_catch].

(** The documents of a listing whose paths are all strings. *)
Lemma list_documents_of_paths (paths : list string) :
  Response.ok response = true ->
  Response.json response = Resolved (JArr (map JStr paths)) ->
  run w [] (GET (Some key) searchParams)
  = (Resolved (NextResponse.make
                 (JObj [("success", JBool true);
                        ("documents",
                         JArr (map json_of_document (map list_transform paths)));
                        ("ragId", JStr ragId);
                        ("timestamp", JStr (clock w))])
                 200),
     [documents_request key ragId]).
Proof.
  intros Hok Hjson.
  GET_awaits_listing.
  rewrite Hok, Hjson; cbn [negb await bind].
  rewrite array_map_list_strings.
  reflexivity.
Qed.

(** A 2xx answer that is not an array lists no document. *)
Lemma list_non_array_is_empty (rawDocuments : jsval) :
  Response.ok response = true ->
  Response.json response = Resolved rawDocuments ->
  (forall items, rawDocuments <> JArr items) ->
  run w [] (GET (Some key) searchParams)
  = (Resolved (NextResponse.make
                 (JObj [("success", JBool true);
                        ("documents", JArr []);
                        ("ragId", JStr ragId);
                        ("timestamp", JStr (clock w))])
                 200),
     [documents_request key ragId]).
Proof.
  intros Hok Hjson Hnot.
  GET_awaits_listing.
  rewrite Hok, Hjson; cbn [negb await bind].
  destruct rawDocuments; try reflexivity.
  exfalso; eapply Hnot; reflexivity.
Qed.

(** A failure of the remote listing other than 404 is forwarded with the
    remote's status, when a reply can have that status. *)
Lemma list_failure_forwarded (errorText : string) :
  Response.ok response = false ->
  Response.status response <> 404%Z ->
  NextResponse.allows (Response.status response) = true ->
  Response.text response = Resolved errorText ->
  run w [] (GET (Some key) searchParams)
  = (Resolved (NextResponse.make
                 (JObj [("success", JBool false);
                        ("error", JStr ("Failed to fetch documents: "
                                        ++ Response.statusText response));
                        ("details", JStr errorText)])
                 (Response.status response)),
     [documents_request key ragId]).
Proof.
  intros Hok Hstatus Hallows Htext.
  GET_awaits_listing.
  rewrite Hok; cbn [negb].
  destruct (Z.eqb_spec (Response.status response) 404); [contradiction|].
  rewrite Htext; cbn [await bind].
  rewrite (json_allowed _ _ Hallows).
  reflexivity.
Qed.

End List.

(** C4. When the credential is configured and the [ragId] is not empty, a
    404 of the remote listing makes List answer [{success:true,
    documents:[]}] with status 200, after that one remote call. *)
Theorem list_not_found_is_empty
    (w : world) (key ragId : string) (searchParams : list (string * string))
    (response : Response.t) :
  Js.truthy_string key = true ->
  get "ragId" searchParams = Some ragId ->
  Js.truthy_string ragId = true ->
  remote w [] (documents_request key ragId) = Resolved response ->
  Response.status response = 404%Z ->
  run w [] (GET (Some key) searchParams)
  = (Resolved (NextResponse.make
                 (JObj [("success", JBool true); ("documents", JArr [])])
                 200),
     [documents_request key ragId]).
Proof.
  intros Hkey Hget Hrag Hremote Hstatus.
  destruct key as [|c key]; [discriminate Hkey|].
  destruct ragId as [|d ragId]; [discriminate Hrag|].
  unfold GET; rewrite Hget.
  rewrite run_fetch, Hremote.
  cbn [await bind try_catch].
  unfold Response.ok; rewrite Hstatus.
  reflexivity.
Qed.

Lemma list_not_found_is_empty_witness :
  run (scripted [Resolved (Response.make 404 "Not Found"
                             (Resolved "Not Found")
                             (Resolved (JObj [("detail", JStr "Not Found")])))]
         "2025-01-01T00:00:00.000Z")
    [] (GET (Some "secret") [("ragId", "kb1")])
  = (Resolved (NextResponse.make
                 (JObj [("success", JBool true); ("documents", JArr [])])
                 200),
     [documents_request "secret" "kb1"]).
Proof.
  apply list_not_found_is_empty with
    (response := Response.make 404 "Not Found"
                   (Resolved "Not Found")
                   (Resolved (JObj [("detail", JStr "Not Found")])));
    reflexivity.
Defined.

(** C1, as amended. When the remote listing answers 2xx with an array of
    paths, List answers with one document per path, in order: its [fileName]
    is the path without a leading ['storage/'], its [status] is [active], and
    its [fileType] comes from the text after the last ['.'] of [fileName],
    compared without regard to letter case: [pdf], [docx], and [txt] for any
    other extension; a name without ['.'] is [txt] when it is not itself
    ['pdf'] or ['docx'] in some letter case. *)
Theorem list_documents_transformed
    (w : world) (key ragId : string) (searchParams : list (string * string))
    (response : Response.t) (paths : list string) :
  Js.truthy_string key = true ->
  get "ragId" searchParams = Some ragId ->
  Js.truthy_string ragId = true ->
  remote w [] (documents_request key ragId) = Resolved response ->
  Response.ok response = true ->
  Response.json response = Resolved (JArr (map JStr paths)) ->
  run w [] (GET (Some key) searchParams)
  = (Resolved (NextResponse.make
                 (JObj [("success", JBool true);
                        ("documents",
                         JArr (map json_of_document (map list_transform paths)));
                        ("ragId", JStr ragId);
                        ("timestamp", JStr (clock w))])
                 200),
     [documents_request key ragId])
  /\ forall docPath, In docPath paths ->
       listed_as_specified docPath (list_transform docPath).
Proof.
  intros Hkey Hget Hrag Hremote Hok Hjson; split.
  - eapply list_documents_of_paths; eassumption.
  - intros docPath _; apply list_transform_as_specified.
Qed.

(** The scenario of the specification: the remote lists
    [["storage/report.pdf","notes.txt"]]. *)
Lemma list_documents_transformed_witness :
  let response :=
    Response.make 200 "OK" (Resolved "")
      (Resolved (JArr [JStr "storage/report.pdf"; JStr "notes.txt"])) in
  let w := scripted [Resolved response] "2025-01-01T00:00:00.000Z" in
  run w [] (GET (Some "secret") [("ragId", "kb1")])
  = (Resolved (NextResponse.make
                 (JObj [("success", JBool true);
                        ("documents",
                         JArr [JObj [("fileName", JStr "report.pdf");
                                     ("fileType", JStr "pdf");
                                     ("status", JStr "active")];
                               JObj [("fileName", JStr "notes.txt");
                                     ("fileType", JStr "txt");
                                     ("status", JStr "active")]]);
                        ("ragId", JStr "kb1");
                        ("timestamp", JStr "2025-01-01T00:00:00.000Z")])
                 200),
     [documents_request "secret" "kb1"])
  /\ forall docPath, In docPath ["storage/report.pdf"; "notes.txt"] ->
       listed_as_specified docPath (list_transform docPath).
Proof.
  intros response w.
  apply (list_documents_transformed w "secret" "kb1" [("ragId", "kb1")]
           response ["storage/report.pdf"; "notes.txt"]);
    reflexivity.
Defined.

(** C1, as stated, fails: the extension is compared without regard to
    case, so ['.PDF'] is not "any other extension", and a name without any
    extension that reads ['pdf'] is typed [pdf]. *)
Lemma list_fileType_not_as_stated :
  fileType (list_transform "storage/REPORT.PDF") = pdf
  /\ spec_fileType (fileName (list_transform "storage/REPORT.PDF")) = txt
  /\ fileType (list_transform "storage/pdf") = pdf
  /\ spec_extension (fileName (list_transform "storage/pdf")) = None
  /\ spec_fileType (fileName (list_transform "storage/pdf")) = txt.
Proof. repeat split. Qed.

(** C8, as stated, fails: the answer to a remote 404 has neither [ragId]
    nor [timestamp]. *)
Lemma list_not_found_lacks_ragId_timestamp :
  let response := Response.make 404 "Not Found" (Resolved "Not Found")
                    (Rejected "Unexpected token") in
  let w := scripted [Resolved response] "2025-01-01T00:00:00.000Z" in
  exists body,
    fst (run w [] (GET (Some "secret") [("ragId", "kb1")]))
    = Resolved (NextResponse.make body 200)
    /\ prop "success" body = Some (JBool true)
    /\ keys body = ["success"; "documents"]
    /\ prop "ragId" body = None
    /\ prop "timestamp" body = None.
Proof. eexists; repeat split. Qed.

(** C8, as amended. Every successful List response carries [success] and
    [documents]; it carries [ragId] and [timestamp] after them unless it
    answers a 404 of the remote listing, when it is exactly
    [{success:true, documents:[]}]. *)
Theorem list_success_shape
    (w : world) (key : option string) (searchParams : list (string * string))
    (res : NextResponse.t) (calls : list fetch_request) :
  run w [] (GET key searchParams) = (Resolved res, calls) ->
  prop "success" (NextResponse.body res) = Some (JBool true) ->
  (keys (NextResponse.body res) = ["success"; "documents"; "ragId"; "timestamp"]
   /\ exists response,
        nth_error (map (remote w []) calls) 0 = Some (Resolved response)
        /\ Response.ok response = true)
  \/ (NextResponse.body res
      = JObj [("success", JBool true); ("documents", JArr [])]
      /\ exists response,
           nth_error (map (remote w []) calls) 0 = Some (Resolved response)
           /\ Response.status response = 404%Z).
Proof.
  intros Hrun Hsuccess.
  destruct key as [[|c key]|]; try (injection Hrun as <- _; discriminate).
  unfold GET in Hrun.
  destruct (get "ragId" searchParams) as [[|d ragId]|];
    try (injection Hrun as <- _; discriminate).
  rewrite run_fetch in Hrun.
  destruct (remote w [] (documents_request (String c key) (String d ragId)))
    as [response|e] eqn:Hremote;
    cbn [await bind try_catch] in Hrun;
    [|injection Hrun as <- _; discriminate].
  destruct (Response.ok response) eqn:Hok; cbn [negb] in Hrun.
  - left.
    destruct (Response.json response) as [rawDocuments|e];
      cbn [await bind try_catch] in Hrun;
      [|injection Hrun as <- _; discriminate].
    assert (Hdocs : exists docs,
               res = NextResponse.make
                       (JObj [("success", JBool true);
                              ("documents", JArr (map json_of_document docs));
                              ("ragId", JStr (String d ragId));
                              ("timestamp", JStr (clock w))]) 200
               /\ calls = [documents_request (String c key) (String d ragId)]).
    { destruct rawDocuments;
        try (injection Hrun as <- <-; exists []; split; reflexivity).
      destruct (array_map_list_settles items) as [[docs Hm] | [e Hm]];
        rewrite Hm in Hrun; injection Hrun as <- <-.
      - exists docs; split; reflexivity.
      - discriminate. }
    destruct Hdocs as (docs & -> & ->).
    split; [reflexivity|].
    exists response; cbn [map nth_error]; rewrite Hremote; auto.
  - right.
    destruct (Z.eqb_spec (Response.status response) 404) as [H404|H404].
    + injection Hrun as <- <-.
      split; [reflexivity|].
      exists response; cbn [map nth_error]; rewrite Hremote; auto.
    + destruct (Response.text response) as [errorText|e];
        cbn [await bind try_catch] in Hrun;
        [|injection Hrun as <- _; discriminate].
      match type of Hrun with
      | context [NextResponse.json ?b ?s] =>
          destruct (NextResponse.json b s) as [r|e] eqn:Hjson
      end; cbn [await try_catch] in Hrun;
        [|injection Hrun as <- _; discriminate].
      apply json_resolved in Hjson; subst r.
      injection Hrun as <- _; discriminate.
Qed.

(** ** UploadAndTrain *)

(** A handler only adds to the remote calls made before it. *)
Lemma run_calls_extend {A : Type} (w : world) (m : route A) :
  forall calls, exists rest, snd (run w calls m) = (calls ++ rest)%list.
Proof.
  induction m as [a | e | req k IH | k IH]; intros calls; cbn [run].
  - exists []; cbn [snd]; rewrite app_nil_r; reflexivity.
  - exists []; cbn [snd]; rewrite app_nil_r; reflexivity.
  - destruct (IH (remote w calls req) (calls ++ [req])%list) as [rest ->].
    exists (req :: rest); rewrite <- app_assoc; reflexivity.
  - apply IH.
Qed.

Section UploadAndTrain.

Variable w : world.
Variable key : string.
Variable formData : FormData.
Variables file ragId : FormDataEntryValue.
Variable fileConfig : file_config.

Hypothesis key_configured : Js.truthy_string key = true.
Hypothesis file_given : required (get "file" formData) = Some file.
Hypothesis ragId_given : required (get "ragId" formData) = Some ragId.
Hypothesis type_known :
  FILE_TYPE_CONFIG (template (entry_type file)) = Some fileConfig.

(** [POST] up to its first remote call. *)
Ltac POST_calls_parse :=
  destruct key; [discriminate key_configured|];
  unfold POST; cbn [await bind try_catch];
  rewrite file_given, ragId_given, type_known, run_fetch.

(** The first remote call of a valid upload is the parse call. *)
Lemma upload_calls_parse :
  exists rest,
    snd (run w [] (POST (Some key) (Resolved formData)))
    = parse_request key file fileConfig :: rest.
Proof.
  POST_calls_parse.
  match goal with
  | |- exists _, snd (run _ ?calls ?m) = _ =>
      destruct (run_calls_extend w m calls) as [rest ->]
  end.
  exists rest; reflexivity.
Qed.

Variable parseResponse : Response.t.
Hypothesis parse_answers :
  remote w [] (parse_request key file fileConfig) = Resolved parseResponse.

(** [POST] up to the answer of the parse call. *)
Ltac POST_awaits_parse :=
  POST_calls_parse; rewrite parse_answers; cbn [await bind try_catch].

(** A failure of the parse call is reported with status 500. *)
Lemma upload_parse_failure (errorText : string) :
  Response.ok parseResponse = false ->
  Response.text parseResponse = Resolved errorText ->
  run w [] (POST (Some key) (Resolved formData))
  = (Resolved (NextResponse.make
                 (JObj [("success", JBool false);
                        ("error", JStr ("Document parsing failed: "
                                        ++ Response.statusText parseResponse));
                        ("details", JStr errorText)])
                 500),
     [parse_request key file fileConfig]).
Proof.
  intros Hok Htext.
  POST_awaits_parse.
  rewrite Hok, Htext.
  reflexivity.
Qed.

Variable parseResult : jsval.
Hypothesis parse_ok : Response.ok parseResponse = true.
Hypothesis parse_json : Response.json parseResponse = Resolved parseResult.

(** A parse result without a list [documents] is a processing error, and
    no train call is made. *)
Lemma upload_invalid_parse_result :
  (forall chunks, prop "documents" parseResult <> Some (JArr chunks)) ->
  exists res,
    run w [] (POST (Some key) (Resolved formData))
    = (Resolved res, [parse_request key file fileConfig])
    /\ NextResponse.status res = 500%Z
    /\ prop "success" (NextResponse.body res) = Some (JBool false)
    /\ (parseResult <> JNull ->
        NextResponse.body res
        = JObj [("success", JBool false);
                ("error", JStr "Invalid response format from document parsing")]).
Proof.
  intros Hnot.
  POST_awaits_parse.
  rewrite parse_ok, parse_json; cbn [negb await bind try_catch].
  destruct parseResult as [| b | n | s0 | items | fields];
    cbn [parseResult_documents bind try_catch];
    try (eexists; split; [reflexivity|];
         repeat split; intros; try reflexivity; congruence).
  cbn [prop] in Hnot.
  destruct (field "documents" fields) as [[| b | n | s0 | items |fields']|];
    try (eexists; split; [reflexivity|]; repeat split; intros; reflexivity).
  exfalso; eapply Hnot; reflexivity.
Qed.

Variable chunks : list jsval.
Hypothesis parse_documents : prop "documents" parseResult = Some (JArr chunks).

(** [POST] up to its second remote call. *)
Ltac POST_calls_train :=
  POST_awaits_parse;
  rewrite parse_ok, parse_json; cbn [negb await bind try_catch];
  destruct parseResult; try discriminate parse_documents;
  cbn [prop] in parse_documents;
  cbn [parseResult_documents bind try_catch];
  rewrite parse_documents, run_fetch.

(** After a parse that returned chunks, the remote calls are the parse call
    and the train call with these chunks, whatever the train call answers. *)
Lemma upload_calls_train :
  snd (run w [] (POST (Some key) (Resolved formData)))
  = [parse_request key file fileConfig; train_request key ragId chunks].
Proof.
  POST_calls_train.
  match goal with
  | |- context [remote w ?calls ?req] => destruct (remote w calls req) as [r|e]
  end; cbn [await bind try_catch]; [|reflexivity].
  destruct (Response.ok r); cbn [negb]; [reflexivity|].
  destruct (Response.text r); reflexivity.
Qed.

Variable trainResponse : Response.t.
Hypothesis train_answers :
  remote w [parse_request key file fileConfig] (train_request key ragId chunks)
  = Resolved trainResponse.

(** A failure of the train call is reported with status 500. *)
Lemma upload_train_failure (errorText : string) :
  Response.ok trainResponse = false ->
  Response.text trainResponse = Resolved errorText ->
  run w [] (POST (Some key) (Resolved formData))
  = (Resolved (NextResponse.make
                 (JObj [("success", JBool false);
                        ("error", JStr ("Knowledge base training failed: "
                                        ++ Response.statusText trainResponse));
                        ("details", JStr errorText)])
                 500),
     [parse_request key file fileConfig; train_request key ragId chunks]).
Proof.
  intros Hok Htext.
  POST_calls_train.
  cbn [app]; rewrite train_answers; cbn [await bind try_catch].
  rewrite Hok, Htext.
  reflexivity.
Qed.

(** The response of an upload whose two remote calls succeed. *)
Lemma upload_success :
  Response.ok trainResponse = true ->
  fst (run w [] (POST (Some key) (Resolved formData)))
  = Resolved (NextResponse.make
                (JObj (object
                   [("success", Some (JBool true));
                    ("message", Some (JStr "Document uploaded and trained successfully"));
                    ("fileName", option_map JStr (entry_name file));
                    ("fileType", option_map (fun t => JStr (file_type_name t))
                                   (config_type fileConfig));
                    ("documentCount", Some (JNum (Z.of_nat (List.length chunks))));
                    ("ragId", Some (entry_json ragId));
                    ("timestamp", Some (JStr (clock w)))]))
                200).
Proof.
  intros Hok.
  POST_calls_train.
  cbn [app]; rewrite train_answers; cbn [await bind try_catch].
  rewrite Hok.
  reflexivity.
Qed.

End UploadAndTrain.

(** ** Delete *)

Lemma delete_format_prefixed (doc : string) :
  Js.startsWith (delete_format doc) "storage/" = true.
Proof.
  unfold delete_format.
  destruct (Js.startsWith doc "storage/") eqn:E; [exact E|].
  apply prefix_self_app.
Qed.

(** The formatted name carries one prefix only, unless the given name
    starts with two. *)
Lemma delete_format_one_prefix (doc : string) :
  exactly_one_prefix (delete_format doc)
  = negb (Js.startsWith doc "storage/storage/").
Proof.
  unfold exactly_one_prefix.
  rewrite delete_format_prefixed; cbn [andb].
  f_equal.
  unfold Js.startsWith at 2.
  change "storage/storage/" with ("storage/" ++ "storage/").
  rewrite prefix_app.
  change (String.length "storage/") with 8%nat.
  unfold delete_format, Js.startsWith.
  destruct (String.prefix "storage/" doc) eqn:E; cbn [andb].
  - reflexivity.
  - pose proof (slice_app "storage/" doc) as Hs.
    change (String.length "storage/") with 8%nat in Hs.
    rewrite Hs; exact E.
Qed.

Section Delete.

Variable w : world.
Variable key : string.
Variables body ragId : jsval.
Variable names : list string.

Hypothesis key_configured : Js.truthy_string key = true.
Hypothesis ragId_given : prop "ragId" body = Some ragId.
Hypothesis ragId_truthy : truthy ragId = true.
Hypothesis documents_given : prop "documents" body = Some (JArr (map JStr names)).
Hypothesis documents_not_empty : names <> [].

(** [DELETE] up to its remote call. *)
Ltac DELETE_calls_remote :=
  destruct key; [discriminate key_configured|];
  unfold DELETE; cbn [await bind try_catch];
  destruct body; try discriminate ragId_given;
  cbn [prop] in ragId_given, documents_given;
  cbn [destructure_body bind try_catch];
  rewrite ragId_given, ragId_truthy, documents_given; cbn [negb];
  destruct names as [|name0 names0]; [congruence|];
  change (map JStr (name0 :: names0))
    with (JStr name0 :: map JStr names0);
  cbv beta iota;
  change (JStr name0 :: map JStr names0)
    with (map JStr (name0 :: names0));
  rewrite array_map_delete_strings;
  cbn [bind]; rewrite run_fetch.

(** The one remote call of a delete carries the formatted names. *)
Lemma delete_calls_remote :
  snd (run w [] (DELETE (Some key) (Resolved body)))
  = [delete_request key ragId (map delete_format names)].
Proof.
  DELETE_calls_remote.
  match goal with
  | |- context [remote w ?calls ?req] => destruct (remote w calls req) as [r|e]
  end; cbn [await bind try_catch]; [|reflexivity].
  destruct (Response.ok r); cbn [negb]; [reflexivity|].
  match goal with
  | |- context [NextResponse.json ?b (Response.status r)] =>
      destruct (NextResponse.json b (Response.status r))
  end; reflexivity.
Qed.

Variable response : Response.t.
Hypothesis remote_answers :
  remote w [] (delete_request key ragId (map delete_format names))
  = Resolved response.

(** A failure of the remote delete is forwarded with the remote's status,
    when a reply can have that status. *)
Lemma delete_failure_forwarded :
  Response.ok response = false ->
  NextResponse.allows (Response.status response) = true ->
  run w [] (DELETE (Some key) (Resolved body))
  = (Resolved (NextResponse.make
                 (JObj [("success", JBool false);
                        ("error", JStr ("Failed to delete documents: "
                                        ++ Response.statusText response));
                        ("details",
                         JStr match Response.text response with
                              | Resolved t => t
                              | Rejected _ => "Unknown error"
                              end)])
                 (Response.status response)),
     [delete_request key ragId (map delete_format names)]).
Proof.
  intros Hok Hallows.
  DELETE_calls_remote.
  rewrite remote_answers; cbn [await bind try_catch].
  rewrite Hok; cbn [negb].
  rewrite (json_allowed _ _ Hallows).
  reflexivity.
Qed.

(** The response of a delete whose remote call succeeds. *)
Lemma delete_success :
  Response.ok response = true ->
  run w [] (DELETE (Some key) (Resolved body))
  = (Resolved (NextResponse.make
                 (JObj [("success", JBool true);
                        ("message", JStr "Documents deleted successfully");
                        ("deletedCount", JNum (Z.of_nat (List.length names)));
                        ("ragId", ragId);
                        ("timestamp", JStr (clock w))])
                 200),
     [delete_request key ragId (map delete_format names)]).
Proof.
  intros Hok.
  DELETE_calls_remote.
  rewrite remote_answers; cbn [await bind try_catch].
  rewrite Hok; cbn [negb bind toISOString_now try_catch run].
  rewrite length_map.
  reflexivity.
Qed.

End Delete.

(** ** The claims on UploadAndTrain *)

(** C2. When the parse call of an upload succeeds and its result has a list
    [documents], the train call is issued with exactly that list as its
    body, and a successful response has [documentCount] equal to the length
    of the list. *)
Theorem upload_trains_parsed_chunks
    (w : world) (key : string) (formData : FormData)
    (file ragId : FormDataEntryValue) (fileConfig : file_config)
    (parseResponse : Response.t) (parseResult : jsval) (chunks : list jsval) :
  Js.truthy_string key = true ->
  required (get "file" formData) = Some file ->
  required (get "ragId" formData) = Some ragId ->
  FILE_TYPE_CONFIG (template (entry_type file)) = Some fileConfig ->
  remote w [] (parse_request key file fileConfig) = Resolved parseResponse ->
  Response.ok parseResponse = true ->
  Response.json parseResponse = Resolved parseResult ->
  prop "documents" parseResult = Some (JArr chunks) ->
  (exists trainCall,
     snd (run w [] (POST (Some key) (Resolved formData)))
     = [parse_request key file fileConfig; trainCall]
     /\ url trainCall
        = LYZR_RAG_BASE_URL ++ "/rag/train/" ++ entry_ToString ragId ++ "/"
     /\ body trainCall = JsonBody (JArr chunks))
  /\ forall trainResponse,
       remote w [parse_request key file fileConfig]
         (train_request key ragId chunks) = Resolved trainResponse ->
       Response.ok trainResponse = true ->
       exists res,
         fst (run w [] (POST (Some key) (Resolved formData))) = Resolved res
         /\ NextResponse.status res = 200%Z
         /\ prop "success" (NextResponse.body res) = Some (JBool true)
         /\ prop "documentCount" (NextResponse.body res)
            = Some (JNum (Z.of_nat (List.length chunks))).
Proof.
  intros Hkey Hfile Hrag Hcfg Hparse Hok Hjson Hdocs; split.
  - exists (train_request key ragId chunks); repeat split.
    eapply upload_calls_train; eassumption.
  - intros trainResponse Htrain Htrain_ok.
    eexists; split.
    + eapply upload_success; eassumption.
    + cbn [NextResponse.status NextResponse.body].
      destruct (entry_name file), (config_type fileConfig);
        repeat split.
Qed.

(** The scenario of the specification: a [text/plain] file whose parse
    returns [{documents:["chunk1","chunk2"]}]. *)
Lemma upload_trains_parsed_chunks_witness :
  let parseResponse :=
    Response.make 200 "OK" (Resolved "")
      (Resolved (JObj [("documents", JArr [JStr "chunk1"; JStr "chunk2"])])) in
  let trainResponse := Response.make 200 "OK" (Resolved "") (Resolved JNull) in
  let w := scripted [Resolved parseResponse; Resolved trainResponse]
             "2025-01-01T00:00:00.000Z" in
  (exists trainCall,
     snd (run w [] (POST (Some "secret") (Resolved example_upload)))
     = [parse_request "secret"
          (FormFile (File.make "notes.txt" "text/plain" "hello"))
          (mkConfig (Some txt) (Some "txt_parser"));
        trainCall]
     /\ url trainCall = "https://rag-prod.studio.lyzr.ai/v3/rag/train/kb1/"
     /\ body trainCall = JsonBody (JArr [JStr "chunk1"; JStr "chunk2"]))
  /\ exists res,
       fst (run w [] (POST (Some "secret") (Resolved example_upload)))
       = Resolved res
       /\ NextResponse.status res = 200%Z
       /\ prop "success" (NextResponse.body res) = Some (JBool true)
       /\ prop "documentCount" (NextResponse.body res) = Some (JNum 2).
Proof.
  intros parseResponse trainResponse w.
  destruct (upload_trains_parsed_chunks w "secret" example_upload
              (FormFile (File.make "notes.txt" "text/plain" "hello"))
              (FormString "kb1")
              (mkConfig (Some txt) (Some "txt_parser"))
              parseResponse
              (JObj [("documents", JArr [JStr "chunk1"; JStr "chunk2"])])
              [JStr "chunk1"; JStr "chunk2"]
              eq_refl eq_refl eq_refl eq_refl eq_refl eq_refl eq_refl eq_refl)
    as [Hcall Hres].
  split; [exact Hcall|].
  exact (Hres trainResponse eq_refl eq_refl).
Defined.

(** C3. For each of the three supported MIME types, the first remote call
    of an upload goes to the parse endpoint with the parser fixed for the
    type, and carries [chunk_size = 1000] and [chunk_overlap = 100] exactly
    when the type is PDF. *)
Theorem upload_parser_and_chunking
    (w : world) (key : string) (formData : FormData) (f : File.t)
    (ragId : FormDataEntryValue) (parser : string) :
  Js.truthy_string key = true ->
  required (get "file" formData) = Some (FormFile f) ->
  required (get "ragId" formData) = Some ragId ->
  spec_parser (File.type f) = Some parser ->
  exists parseCall rest type entries,
    snd (run w [] (POST (Some key) (Resolved formData))) = parseCall :: rest
    /\ url parseCall = LYZR_RAG_BASE_URL ++ "/parse/" ++ type ++ "/"
    /\ body parseCall = FormBody entries
    /\ get "file" entries = Some (FormFile f)
    /\ get "data_parser" entries = Some (FormString parser)
    /\ ((get "chunk_size" entries = Some (FormString "1000")
         /\ get "chunk_overlap" entries = Some (FormString "100"))
        <-> File.type f = "application/pdf")
    /\ (File.type f <> "application/pdf" ->
        get "chunk_size" entries = None /\ get "chunk_overlap" entries = None).
Proof.
  intros Hkey Hfile Hrag Hparser.
  unfold spec_parser in Hparser.
  destruct (String.eqb_spec (File.type f) "application/pdf") as [Hpdf|Hpdf];
    [|destruct (String.eqb_spec (File.type f)
         "application/vnd.openxmlformats-officedocument.wordprocessingml.document")
        as [Hdocx|Hdocx];
      [|destruct (String.eqb_spec (File.type f) "text/plain") as [Htxt|Htxt];
        [|discriminate Hparser]]];
    injection Hparser as <-.
  - destruct (upload_calls_parse w key formData (FormFile f) ragId
                (mkConfig (Some pdf) (Some "pypdf")) Hkey Hfile Hrag)
      as [rest Hcalls]; [cbn [entry_type template]; rewrite Hpdf; reflexivity|].
    eexists _, rest, "pdf", _; split; [exact Hcalls|].
    repeat split; try reflexivity; try assumption; congruence.
  - destruct (upload_calls_parse w key formData (FormFile f) ragId
                (mkConfig (Some docx) (Some "docx2txt")) Hkey Hfile Hrag)
      as [rest Hcalls]; [cbn [entry_type template]; rewrite Hdocx; reflexivity|].
    eexists _, rest, "docx", _; split; [exact Hcalls|].
    repeat split; try reflexivity; try assumption;
      try (intros [H _]; discriminate H); congruence.
  - destruct (upload_calls_parse w key formData (FormFile f) ragId
                (mkConfig (Some txt) (Some "txt_parser")) Hkey Hfile Hrag)
      as [rest Hcalls]; [cbn [entry_type template]; rewrite Htxt; reflexivity|].
    eexists _, rest, "txt", _; split; [exact Hcalls|].
    repeat split; try reflexivity; try assumption;
      try (intros [H _]; discriminate H); congruence.
Qed.

Lemma upload_parser_and_chunking_witness :
  let f := File.make "report.pdf" "application/pdf" "%PDF-1.7" in
  let formData := [("file", FormFile f); ("ragId", FormString "kb1")] in
  exists parseCall rest type entries,
    snd (run (scripted [] "2025-01-01T00:00:00.000Z") []
           (POST (Some "secret") (Resolved formData)))
    = parseCall :: rest
    /\ url parseCall = LYZR_RAG_BASE_URL ++ "/parse/" ++ type ++ "/"
    /\ body parseCall = FormBody entries
    /\ get "file" entries = Some (FormFile f)
    /\ get "data_parser" entries = Some (FormString "pypdf")
    /\ ((get "chunk_size" entries = Some (FormString "1000")
         /\ get "chunk_overlap" entries = Some (FormString "100"))
        <-> File.type f = "application/pdf")
    /\ (File.type f <> "application/pdf" ->
        get "chunk_size" entries = None /\ get "chunk_overlap" entries = None).
Proof.
  intros f formData.
  exact (upload_parser_and_chunking (scripted [] "2025-01-01T00:00:00.000Z")
           "secret" formData f (FormString "kb1") "pypdf"
           eq_refl eq_refl eq_refl eq_refl).
Defined.

(** C10. A 2xx answer of the remote listing whose body is not an array
    makes List answer with success and no documents, while a parse result
    whose [documents] is absent or not a list makes UploadAndTrain answer
    with an error of status 500, without a train call. *)
Theorem non_list_bodies_list_empty_upload_error :
  (forall (w : world) (key ragId : string)
          (searchParams : list (string * string))
          (response : Response.t) (rawDocuments : jsval),
      Js.truthy_string key = true ->
      get "ragId" searchParams = Some ragId ->
      Js.truthy_string ragId = true ->
      remote w [] (documents_request key ragId) = Resolved response ->
      Response.ok response = true ->
      Response.json response = Resolved rawDocuments ->
      (forall items, rawDocuments <> JArr items) ->
      run w [] (GET (Some key) searchParams)
      = (Resolved (NextResponse.make
                     (JObj [("success", JBool true);
                            ("documents", JArr []);
                            ("ragId", JStr ragId);
                            ("timestamp", JStr (clock w))])
                     200),
         [documents_request key ragId]))
  /\ (forall (w : world) (key : string) (formData : FormData)
             (file ragId : FormDataEntryValue) (fileConfig : file_config)
             (parseResponse : Response.t) (parseResult : jsval),
      Js.truthy_string key = true ->
      required (get "file" formData) = Some file ->
      required (get "ragId" formData) = Some ragId ->
      FILE_TYPE_CONFIG (template (entry_type file)) = Some fileConfig ->
      remote w [] (parse_request key file fileConfig) = Resolved parseResponse ->
      Response.ok parseResponse = true ->
      Response.json parseResponse = Resolved parseResult ->
      (forall chunks, prop "documents" parseResult <> Some (JArr chunks)) ->
      exists res,
        run w [] (POST (Some key) (Resolved formData))
        = (Resolved res, [parse_request key file fileConfig])
        /\ NextResponse.status res = 500%Z
        /\ prop "success" (NextResponse.body res) = Some (JBool false)
        /\ (parseResult <> JNull ->
            NextResponse.body res
            = JObj [("success", JBool false);
                    ("error",
                     JStr "Invalid response format from document parsing")])).
Proof.
  split.
  - intros; eapply list_non_array_is_empty; eassumption.
  - intros; eapply upload_invalid_parse_result; eassumption.
Qed.

(** The same body, [{"documents": "none"}], answered to a listing and to a
    parse. *)
Lemma non_list_bodies_list_empty_upload_error_witness :
  let response :=
    Response.make 200 "OK" (Resolved "")
      (Resolved (JObj [("documents", JStr "none")])) in
  let w := scripted [Resolved response] "2025-01-01T00:00:00.000Z" in
  run w [] (GET (Some "secret") [("ragId", "kb1")])
  = (Resolved (NextResponse.make
                 (JObj [("success", JBool true);
                        ("documents", JArr []);
                        ("ragId", JStr "kb1");
                        ("timestamp", JStr "2025-01-01T00:00:00.000Z")])
                 200),
     [documents_request "secret" "kb1"])
  /\ exists res,
       run w [] (POST (Some "secret") (Resolved example_upload))
       = (Resolved res,
          [parse_request "secret"
             (FormFile (File.make "notes.txt" "text/plain" "hello"))
             (mkConfig (Some txt) (Some "txt_parser"))])
       /\ NextResponse.status res = 500%Z
       /\ prop "success" (NextResponse.body res) = Some (JBool false)
       /\ NextResponse.body res
          = JObj [("success", JBool false);
                  ("error", JStr "Invalid response format from document parsing")].
Proof.
  intros response w.
  destruct non_list_bodies_list_empty_upload_error as [Hlist Hupload].
  split.
  - apply (Hlist w "secret" "kb1" [("ragId", "kb1")] response
             (JObj [("documents", JStr "none")]));
      try reflexivity; discriminate.
  - destruct (Hupload w "secret" example_upload
                (FormFile (File.make "notes.txt" "text/plain" "hello"))
                (FormString "kb1")
                (mkConfig (Some txt) (Some "txt_parser"))
                response (JObj [("documents", JStr "none")])
                eq_refl eq_refl eq_refl eq_refl eq_refl eq_refl eq_refl)
      as (res & Hrun & Hstatus & Hsuccess & Hbody);
      [discriminate|].
    exists res; repeat split; try assumption.
    apply Hbody; discriminate.
Defined.

(** ** The claims on the missing credential *)

(** C7. Without the credential, List, UploadAndTrain and Delete answer the
    same [{success:false, error}] with status 500, and make no remote
    call. *)
Theorem missing_credential
    (w : world) (searchParams : list (string * string))
    (formData : settled FormData) (body : settled jsval) :
  run w [] (GET None searchParams) = (Resolved config_error, [])
  /\ run w [] (POST None formData) = (Resolved config_error, [])
  /\ run w [] (DELETE None body) = (Resolved config_error, [])
  /\ NextResponse.status config_error = 500%Z
  /\ NextResponse.body config_error
     = JObj [("success", JBool false);
             ("error", JStr "LYZR_API_KEY not configured in .env.local")].
Proof. repeat split. Qed.

(** ** The claims on Delete *)




(** ** The claims on the transform of List *)

(** C9, as stated, fails: a path with two prefixes loses one of them at
    each application of the transform. *)
Lemma list_transform_twice_differs :
  list_transform "storage/storage/a.pdf" = mkDoc "storage/a.pdf" pdf active
  /\ list_transform (fileName (list_transform "storage/storage/a.pdf"))
     = mkDoc "a.pdf" pdf active
  /\ list_transform (fileName (list_transform "storage/storage/a.pdf"))
     <> list_transform "storage/storage/a.pdf".
Proof. repeat split; discriminate. Qed.

(** C9, as amended. Applying the transform of List to the [fileName] it
    produced gives the same document again exactly for the paths that do not
    start with two ['storage/'] prefixes. *)
Theorem list_transform_idempotent_iff (docPath : string) :
  list_transform (fileName (list_transform docPath)) = list_transform docPath
  <-> Js.startsWith docPath "storage/storage/" = false.
Proof.
  rewrite <- list_fileName_prefixed, <- list_fileName_fixed.
  unfold list_transform; cbn [fileName].
  split.
  - intros H; injection H as H _; exact H.
  - intros ->; reflexivity.
Qed.

(** ** The claims on remote failures *)




Lemma list_success_shape_witness :
  let response :=
    Response.make 200 "OK" (Resolved "")
      (Resolved (JArr [JStr "storage/report.pdf"])) in
  let w := scripted [Resolved response] "2025-01-01T00:00:00.000Z" in
  let body :=
    JObj [("success", JBool true);
          ("documents",
           JArr [JObj [("fileName", JStr "report.pdf");
                       ("fileType", JStr "pdf");
                       ("status", JStr "active")]]);
          ("ragId", JStr "kb1");
          ("timestamp", JStr "2025-01-01T00:00:00.000Z")] in
  (keys body = ["success"; "documents"; "ragId"; "timestamp"]
   /\ exists response,
        nth_error (map (remote w []) [documents_request "secret" "kb1"]) 0
        = Some (Resolved response)
        /\ Response.ok response = true)
  \/ (body = JObj [("success", JBool true); ("documents", JArr [])]
      /\ exists response,
           nth_error (map (remote w []) [documents_request "secret" "kb1"]) 0
           = Some (Resolved response)
           /\ Response.status response = 404%Z).
Proof.
  intros response w body.
  exact (list_success_shape w (Some "secret") [("ragId", "kb1")]
           (NextResponse.make body 200) [documents_request "secret" "kb1"]
           eq_refl eq_refl).
Defined.

(** ** Every run of a handler *)

Lemma bounded_run {A : Type} (Q : A -> Prop) (E : string -> Prop)
    (P : fetch_request -> Prop) (w : world) (n : nat) (m : route A) :
  bounded Q E P n m ->
  forall calls, exists rest,
    snd (run w calls m) = (calls ++ rest)%list
    /\ (List.length rest <= n)%nat
    /\ Forall P rest
    /\ match fst (run w calls m) with
       | Resolved a => Q a
       | Rejected e => E e
       end.
Proof.
  induction 1 as [n a Ha | n e He | n req k Hreq _ IH | n k _ IH];
    intros calls; cbn [run].
  - exists []; rewrite app_nil_r; cbn; repeat split; auto; lia.
  - exists []; rewrite app_nil_r; cbn; repeat split; auto; lia.
  - destruct (IH (remote w calls req) (calls ++ [req])%list)
      as (rest & Hcalls & Hlen & Hall & Hout).
    exists (req :: rest); rewrite Hcalls, <- app_assoc.
    cbn; repeat split; auto; lia.
  - apply IH.
Qed.

(** A callback that awaits nothing: mapping it returns or throws. *)
Lemma array_map_settles {A B : Type} (f : A -> route B) (a : list A) :
  (forall x, (exists y, f x = Return y) \/ (exists e, f x = Throw e)) ->
  (exists ys, array_map f a = Return ys) \/ (exists e, array_map f a = Throw e).
Proof.
  intros Hf; induction a as [|x a IH]; cbn [array_map].
  - left; eexists; reflexivity.
  - destruct (Hf x) as [[y ->] | [e ->]]; cbn [bind];
      [|right; eexists; reflexivity].
    destruct IH as [[ys ->] | [e ->]]; cbn [bind];
      [left | right]; eexists; reflexivity.
Qed.

Lemma list_callback_settles (x : jsval) :
  (exists y, list_callback x = Return y) \/ (exists e, list_callback x = Throw e).
Proof. destruct x; cbn; eauto. Qed.

Lemma delete_callback_settles (x : jsval) :
  (exists y, delete_callback x = Return y)
  \/ (exists e, delete_callback x = Throw e).
Proof. destruct x; cbn; eauto. Qed.

Lemma sent_with_base (key rest method : string)
    (hs : list (string * string)) (b : fetch_body) :
  get "x-api-key" hs = Some key ->
  sent_with (Some key) (mkFetch (LYZR_RAG_BASE_URL ++ rest) method hs b).
Proof.
  intros H; split; [exact H|].
  apply prefix_self_app.
Qed.

(** One step through a handler: reduce, then follow the next node or the
    next test of the code. *)
Ltac handler_step :=
  cbn [try_catch bind await fetch toISOString_now negb
       parseResult_documents destructure_body];
  match goal with
  | |- bounded _ _ _ _ (Return _) => apply bounded_Return
  | |- bounded _ _ _ _ (Throw _) => apply bounded_Throw
  | |- bounded _ _ _ _ (Fetch _ _) => apply bounded_Fetch; [|intros ?]
  | |- bounded _ _ _ _ (Now _) => apply bounded_Now; intros ?
  | |- bounded _ _ _ _ ?m =>
      match m with
      | context [array_map list_callback ?l] =>
          let H := fresh "Hmap" in
          destruct (array_map_settles list_callback l list_callback_settles)
            as [[? H] | [? H]]; rewrite H
      | context [array_map delete_callback ?l] =>
          let H := fresh "Hmap" in
          destruct (array_map_settles delete_callback l delete_callback_settles)
            as [[? H] | [? H]]; rewrite H
      | context [NextResponse.json ?b ?s] =>
          first
            [ change (NextResponse.json b s)
                with (Resolved (NextResponse.make b s))
            | let H := fresh "Hjson" in
              destruct (NextResponse.json b s) eqn:H;
              [apply json_resolved in H; subst|] ]
      | context [await ?p] => destruct p eqn:?
      | context [match ?x with _ => _ end] => destruct x eqn:?
      end
  end.

(** The reply at the end of a path is well formed. *)
Ltac reply_step :=
  match goal with
  | |- reply_well_formed _ =>
      first
        [ left; split; reflexivity
        | right; split; [reflexivity|];
          split; [first [reflexivity | assumption
                         | apply negb_true_iff; assumption]|];
          eexists; split; reflexivity ]
  | |- upload_reply_well_formed _ => unfold upload_reply_well_formed
  | |- sent_with _ _ => apply sent_with_base; reflexivity
  | |- _ /\ _ => split
  | |- _ \/ _ => first [left; reflexivity | right; left; reflexivity
                        | right; right; reflexivity]
  end.

(** Every run of [GET]: one remote call at most, under the credential; a
    well-formed reply, never an exception. *)
Lemma GET_bounded (key : option string) (searchParams : list (string * string)) :
  bounded reply_well_formed (fun _ => False) (sent_with key) 1
    (GET key searchParams).
Proof.
  unfold GET.
  repeat handler_step; repeat reply_step.
Qed.

(** Every run of [POST]: two remote calls at most, under the credential; a
    well-formed reply of status 200, 400 or 500, never an exception. *)
Lemma POST_bounded (key : option string) (request : settled FormData) :
  bounded upload_reply_well_formed (fun _ => False) (sent_with key) 2
    (POST key request).
Proof.
  unfold POST, parseResult_documents.
  repeat handler_step; repeat reply_step.
Qed.

(** Every run of [DELETE]: one remote call at most, under the credential; a
    well-formed reply, never an exception. *)
Lemma DELETE_bounded (key : option string) (request : settled jsval) :
  bounded reply_well_formed (fun _ => False) (sent_with key) 1
    (DELETE key request).
Proof.
  unfold DELETE, destructure_body.
  repeat handler_step; repeat reply_step.
Qed.

(** Every run of a handler ends in a reply, never in an exception: a reply
    whose [success] is [true] with status 200, or whose [success] is [false]
    with a status that is not 2xx and an [error] string that is not empty. *)
Theorem handlers_always_reply
    (w : world) (key : option string) (searchParams : list (string * string))
    (formData : settled FormData) (payload : settled jsval) :
  (exists res, fst (run w [] (GET key searchParams)) = Resolved res
               /\ reply_well_formed res)
  /\ (exists res, fst (run w [] (POST key formData)) = Resolved res
                  /\ reply_well_formed res)
  /\ (exists res, fst (run w [] (DELETE key payload)) = Resolved res
                  /\ reply_well_formed res).
Proof.
  split; [|split].
  - destruct (bounded_run _ _ _ w _ _ (GET_bounded key searchParams) [])
      as (_ & _ & _ & _ & H).
    destruct (fst (run w [] (GET key searchParams))); [eauto | contradiction].
  - destruct (bounded_run _ _ _ w _ _ (POST_bounded key formData) [])
      as (_ & _ & _ & _ & H).
    destruct (fst (run w [] (POST key formData))) as [res|];
      [|contradiction].
    exists res; split; [reflexivity | apply H].
  - destruct (bounded_run _ _ _ w _ _ (DELETE_bounded key payload) [])
      as (_ & _ & _ & _ & H).
    destruct (fst (run w [] (DELETE key payload))); [eauto | contradiction].
Qed.

(** UploadAndTrain answers with status 200, 400 or 500 only: no status of
    the remote service reaches the caller. *)
Theorem upload_status_200_400_500
    (w : world) (key : option string) (formData : settled FormData) :
  exists res,
    fst (run w [] (POST key formData)) = Resolved res
    /\ (NextResponse.status res = 200%Z
        \/ NextResponse.status res = 400%Z
        \/ NextResponse.status res = 500%Z).
Proof.
  destruct (bounded_run _ _ _ w _ _ (POST_bounded key formData) [])
    as (_ & _ & _ & _ & H).
  destruct (fst (run w [] (POST key formData))) as [res|]; [|contradiction].
  exists res; split; [reflexivity | apply H].
Qed.

(** List and Delete make one remote call at most, UploadAndTrain two at
    most: no handler retries or issues a compensating call. *)
Theorem remote_calls_bounded
    (w : world) (key : option string) (searchParams : list (string * string))
    (formData : settled FormData) (payload : settled jsval) :
  (List.length (snd (run w [] (GET key searchParams))) <= 1)%nat
  /\ (List.length (snd (run w [] (POST key formData))) <= 2)%nat
  /\ (List.length (snd (run w [] (DELETE key payload))) <= 1)%nat.
Proof.
  split; [|split].
  - destruct (bounded_run _ _ _ w _ _ (GET_bounded key searchParams) [])
      as (rest & -> & Hlen & _); exact Hlen.
  - destruct (bounded_run _ _ _ w _ _ (POST_bounded key formData) [])
      as (rest & -> & Hlen & _); exact Hlen.
  - destruct (bounded_run _ _ _ w _ _ (DELETE_bounded key payload) [])
      as (rest & -> & Hlen & _); exact Hlen.
Qed.

(** Every remote call of every handler carries the configured credential
    in its [x-api-key] header, and the URL text handed to [fetch] begins with
    [LYZR_RAG_BASE_URL]; the text is the one the handler writes, before
    [fetch] parses it and resolves the path that follows the prefix. *)
Theorem remote_calls_carry_credential
    (w : world) (key : option string) (searchParams : list (string * string))
    (formData : settled FormData) (payload : settled jsval) :
  Forall (sent_with key) (snd (run w [] (GET key searchParams)))
  /\ Forall (sent_with key) (snd (run w [] (POST key formData)))
  /\ Forall (sent_with key) (snd (run w [] (DELETE key payload))).
Proof.
  split; [|split].
  - destruct (bounded_run _ _ _ w _ _ (GET_bounded key searchParams) [])
      as (rest & -> & _ & Hall & _); exact Hall.
  - destruct (bounded_run _ _ _ w _ _ (POST_bounded key formData) [])
      as (rest & -> & _ & Hall & _); exact Hall.
  - destruct (bounded_run _ _ _ w _ _ (DELETE_bounded key payload) [])
      as (rest & -> & _ & Hall & _); exact Hall.
Qed.

(** ** Validation *)

(** With the credential configured, a List request without [ragId], or
    with an empty one, is answered 400 before any remote call. *)
Theorem list_requires_ragId
    (w : world) (key : string) (searchParams : list (string * string)) :
  Js.truthy_string key = true ->
  get "ragId" searchParams = None \/ get "ragId" searchParams = Some "" ->
  run w [] (GET (Some key) searchParams)
  = (Resolved (reply_400 "ragId is required as a query parameter"), []).
Proof.
  intros Hkey Hrag.
  destruct key; [discriminate Hkey|].
  unfold GET; destruct Hrag as [-> | ->]; reflexivity.
Qed.

Lemma list_requires_ragId_witness :
  run (scripted [] "2025-01-01T00:00:00.000Z") []
    (GET (Some "secret") [("id", "kb1")])
  = (Resolved (reply_400 "ragId is required as a query parameter"), []).
Proof.
  apply list_requires_ragId; [reflexivity | left; reflexivity].
Defined.

(** With the credential configured, an upload is checked in this order,
    and answered 400 before any remote call: the [file] field must be
    present and not an empty string, then the [ragId] field likewise. *)
Theorem upload_requires_file_then_ragId
    (w : world) (key : string) (formData : FormData) :
  Js.truthy_string key = true ->
  (required (get "file" formData) = None ->
   run w [] (POST (Some key) (Resolved formData))
   = (Resolved (reply_400 "file is required"), []))
  /\ (required (get "file" formData) <> None ->
      required (get "ragId" formData) = None ->
      run w [] (POST (Some key) (Resolved formData))
      = (Resolved (reply_400 "ragId is required"), [])).
Proof.
  intros Hkey.
  destruct key; [discriminate Hkey|].
  unfold POST; cbn [await bind try_catch]; split.
  - intros ->; reflexivity.
  - intros Hfile ->.
    destruct (required (get "file" formData)); [reflexivity | congruence].
Qed.

Lemma upload_requires_file_then_ragId_witness :
  let w := scripted [] "2025-01-01T00:00:00.000Z" in
  run w [] (POST (Some "secret") (Resolved [("ragId", FormString "kb1")]))
  = (Resolved (reply_400 "file is required"), [])
  /\ run w [] (POST (Some "secret")
                 (Resolved [("file", FormString "text"); ("ragId", FormString "")]))
     = (Resolved (reply_400 "ragId is required"), []).
Proof.
  intros w; split.
  - apply (upload_requires_file_then_ragId w "secret"
             [("ragId", FormString "kb1")]); reflexivity.
  - apply (upload_requires_file_then_ragId w "secret"
             [("file", FormString "text"); ("ragId", FormString "")]);
      [reflexivity | discriminate | reflexivity].
Defined.

(** An upload whose declared type is not a property of [FILE_TYPE_CONFIG]
    is answered 400 before any remote call, with the declared type in the
    message; a [file] field that is a string declares the type
    [undefined]. *)
Theorem upload_rejects_unknown_type
    (w : world) (key : string) (formData : FormData)
    (file ragId : FormDataEntryValue) :
  Js.truthy_string key = true ->
  required (get "file" formData) = Some file ->
  required (get "ragId" formData) = Some ragId ->
  FILE_TYPE_CONFIG (template (entry_type file)) = None ->
  run w [] (POST (Some key) (Resolved formData))
  = (Resolved (reply_400 ("Unsupported file type: "
                          ++ template (entry_type file)
                          ++ ". Only PDF, DOCX, and TXT files are supported.")),
     []).
Proof.
  intros Hkey Hfile Hrag Htype.
  destruct key; [discriminate Hkey|].
  unfold POST; cbn [await bind try_catch].
  rewrite Hfile, Hrag, Htype.
  reflexivity.
Qed.

Lemma upload_rejects_unknown_type_witness :
  let w := scripted [] "2025-01-01T00:00:00.000Z" in
  run w []
    (POST (Some "secret")
       (Resolved [("file", FormFile (File.make "a.png" "image/png" "PNG"));
                  ("ragId", FormString "kb1")]))
  = (Resolved (reply_400 "Unsupported file type: image/png. Only PDF, DOCX, and TXT files are supported."),
     [])
  /\ run w []
       (POST (Some "secret")
          (Resolved [("file", FormString "not a file");
                     ("ragId", FormString "kb1")]))
     = (Resolved (reply_400 "Unsupported file type: undefined. Only PDF, DOCX, and TXT files are supported."),
        []).
Proof.
  intros w; split.
  - apply (upload_rejects_unknown_type w "secret" _
             (FormFile (File.make "a.png" "image/png" "PNG"))
             (FormString "kb1")); reflexivity.
  - apply (upload_rejects_unknown_type w "secret" _
             (FormString "not a file") (FormString "kb1")); reflexivity.
Defined.

(** A declared type that names a property every object inherits, such as
    [constructor], is not rejected: the upload goes on to the parse endpoint
    of the type [undefined], with the parser [undefined] and no chunking
    parameters. *)
Theorem upload_accepts_inherited_property_names
    (w : world) (key : string) (formData : FormData) (f : File.t)
    (ragId : FormDataEntryValue) :
  Js.truthy_string key = true ->
  required (get "file" formData) = Some (FormFile f) ->
  required (get "ragId" formData) = Some ragId ->
  In (File.type f) Object_prototype_keys ->
  exists rest,
    snd (run w [] (POST (Some key) (Resolved formData)))
    = mkFetch (LYZR_RAG_BASE_URL ++ "/parse/undefined/") "POST"
        [("x-api-key", key)]
        (FormBody [("file", FormFile f);
                   ("data_parser", FormString "undefined");
                   ("extra_info", FormString "{}")])
      :: rest.
Proof.
  intros Hkey Hfile Hrag Hin.
  assert (Hcfg : FILE_TYPE_CONFIG (template (entry_type (FormFile f)))
                 = Some (mkConfig None None)).
  { cbn [entry_type template].
    cbn [Object_prototype_keys In] in Hin.
    repeat (destruct Hin as [<- | Hin]; [reflexivity|]).
    contradiction. }
  destruct (upload_calls_parse w key formData (FormFile f) ragId
              (mkConfig None None) Hkey Hfile Hrag Hcfg) as [rest Hcalls].
  exists rest; exact Hcalls.
Qed.

Lemma upload_accepts_inherited_property_names_witness :
  let f := File.make "x" "constructor" "data" in
  exists rest,
    snd (run (scripted [] "2025-01-01T00:00:00.000Z") []
           (POST (Some "secret")
              (Resolved [("file", FormFile f); ("ragId", FormString "kb1")])))
    = mkFetch "https://rag-prod.studio.lyzr.ai/v3/parse/undefined/" "POST"
        [("x-api-key", "secret")]
        (FormBody [("file", FormFile f);
                   ("data_parser", FormString "undefined");
                   ("extra_info", FormString "{}")])
      :: rest.
Proof.
  intros f.
  apply (upload_accepts_inherited_property_names
           (scripted [] "2025-01-01T00:00:00.000Z") "secret" _ f
           (FormString "kb1"));
    try reflexivity.
  left; reflexivity.
Defined.

(** With the credential configured, a Delete request is checked in this
    order, and answered 400 before any remote call: [ragId] must be truthy,
    then [documents] must be an array that is not empty. *)
Theorem delete_requires_ragId_then_documents
    (w : world) (key : string) (payload : jsval) :
  Js.truthy_string key = true ->
  payload <> JNull ->
  (match prop "ragId" payload with
   | Some ragId => truthy ragId = false
   | None => True
   end ->
   run w [] (DELETE (Some key) (Resolved payload))
   = (Resolved (reply_400 "ragId is required"), []))
  /\ (forall ragId,
        prop "ragId" payload = Some ragId -> truthy ragId = true ->
        (forall name names,
            prop "documents" payload <> Some (JArr (name :: names))) ->
        run w [] (DELETE (Some key) (Resolved payload))
        = (Resolved (reply_400
                       "documents array is required and must not be empty"),
           [])).
Proof.
  intros Hkey Hnull.
  destruct key; [discriminate Hkey|].
  unfold DELETE; cbn [await bind try_catch]; split.
  - intros Hrag.
    destruct payload; try contradiction; try reflexivity.
    cbn [prop] in Hrag; cbn [destructure_body bind try_catch].
    destruct (field "ragId" fields); [rewrite Hrag|]; reflexivity.
  - intros ragId Hrag Htruthy Hdocs.
    destruct payload; try discriminate Hrag.
    cbn [prop] in Hrag, Hdocs; cbn [destructure_body bind try_catch].
    rewrite Hrag, Htruthy; cbn [negb].
    destruct (field "documents" fields) as [[| | | | [|name names] |]|];
      try reflexivity.
    exfalso; eapply Hdocs; reflexivity.
Qed.

Lemma delete_requires_ragId_then_documents_witness :
  let w := scripted [] "2025-01-01T00:00:00.000Z" in
  run w [] (DELETE (Some "secret")
              (Resolved (JObj [("ragId", JStr "");
                               ("documents", JArr [JStr "a.pdf"])])))
  = (Resolved (reply_400 "ragId is required"), [])
  /\ run w [] (DELETE (Some "secret")
                 (Resolved (JObj [("ragId", JStr "kb1");
                                  ("documents", JArr [])])))
     = (Resolved (reply_400 "documents array is required and must not be empty"),
        []).
Proof.
  intros w; split.
  - apply (delete_requires_ragId_then_documents w "secret"
             (JObj [("ragId", JStr ""); ("documents", JArr [JStr "a.pdf"])]));
      [reflexivity | discriminate | reflexivity].
  - apply (delete_requires_ragId_then_documents w "secret"
             (JObj [("ragId", JStr "kb1"); ("documents", JArr [])])
             eq_refl) with (ragId := JStr "kb1");
      [discriminate | reflexivity | reflexivity | discriminate].
Defined.

(** ** Exceptions *)



Lemma array_map_list_throws (items : list jsval) :
  Exists not_a_string items ->
  exists e, array_map list_callback items = Throw e.
Proof.
  induction 1 as [x items Hx | x items _ [e IH]]; cbn [array_map].
  - destruct x; try contradiction; cbn; eauto.
  - destruct x; cbn [list_callback bind]; eauto.
    rewrite IH; cbn [bind]; eauto.
Qed.

Lemma array_map_delete_throws (items : list jsval) :
  Exists not_a_string items ->
  exists e, array_map delete_callback items = Throw e.
Proof.
  induction 1 as [x items Hx | x items _ [e IH]]; cbn [array_map].
  - destruct x; try contradiction; cbn; eauto.
  - destruct x; cbn [delete_callback bind]; eauto.
    rewrite IH; cbn [bind]; eauto.
Qed.

(** A 2xx answer of the remote listing whose body cannot be read as JSON,
    or is an array with an entry that is not a string, is answered 500 by
    the [catch] of List, not forwarded. *)
Theorem list_malformed_body_is_500
    (w : world) (key ragId : string) (searchParams : list (string * string))
    (response : Response.t) :
  Js.truthy_string key = true ->
  get "ragId" searchParams = Some ragId ->
  Js.truthy_string ragId = true ->
  remote w [] (documents_request key ragId) = Resolved response ->
  Response.ok response = true ->
  (exists message, Response.json response = Rejected message)
  \/ (exists items, Response.json response = Resolved (JArr items)
                    /\ Exists not_a_string items) ->
  exists details,
    run w [] (GET (Some key) searchParams)
    = (Resolved (reply_500 "Failed to fetch documents" details),
       [documents_request key ragId]).
Proof.
  intros Hkey Hget Hrag Hremote Hok Hbody.
  destruct key; [discriminate Hkey|].
  destruct ragId; [discriminate Hrag|].
  unfold GET; rewrite Hget, run_fetch, Hremote.
  cbn [await bind try_catch]; rewrite Hok; cbn [negb].
  destruct Hbody as [[message ->] | (items & -> & Hitems)].
  - exists message; reflexivity.
  - cbn [await bind].
    destruct (array_map_list_throws items Hitems) as [e ->].
    exists e; reflexivity.
Qed.

Lemma list_malformed_body_is_500_witness :
  let response :=
    Response.make 200 "OK" (Resolved "[1]") (Resolved (JArr [JNum 1])) in
  exists details,
    run (scripted [Resolved response] "2025-01-01T00:00:00.000Z") []
      (GET (Some "secret") [("ragId", "kb1")])
    = (Resolved (reply_500 "Failed to fetch documents" details),
       [documents_request "secret" "kb1"]).
Proof.
  intros response.
  apply (list_malformed_body_is_500
           (scripted [Resolved response] "2025-01-01T00:00:00.000Z")
           "secret" "kb1" [("ragId", "kb1")] response);
    try reflexivity.
  right; exists [JNum 1]; split; [reflexivity|].
  constructor; exact I.
Defined.

(** A Delete request whose [documents] holds an entry that is not a string
    is answered 500 by the [catch], and no remote call is made. *)
Theorem delete_non_string_name_is_500
    (w : world) (key : string) (payload ragId : jsval) (items : list jsval) :
  Js.truthy_string key = true ->
  prop "ragId" payload = Some ragId ->
  truthy ragId = true ->
  prop "documents" payload = Some (JArr items) ->
  Exists not_a_string items ->
  exists details,
    run w [] (DELETE (Some key) (Resolved payload))
    = (Resolved (reply_500 "Failed to delete documents" details), []).
Proof.
  intros Hkey Hrag Htruthy Hdocs Hitems.
  destruct key; [discriminate Hkey|].
  unfold DELETE; cbn [await bind try_catch].
  destruct payload; try discriminate Hrag.
  cbn [prop] in Hrag, Hdocs; cbn [destructure_body bind try_catch].
  rewrite Hrag, Htruthy, Hdocs; cbn [negb].
  destruct (array_map_delete_throws items Hitems) as [e He].
  destruct items as [|item items]; [inversion Hitems|].
  rewrite He.
  exists e; reflexivity.
Qed.

Lemma delete_non_string_name_is_500_witness :
  exists details,
    run (scripted [] "2025-01-01T00:00:00.000Z") []
      (DELETE (Some "secret")
         (Resolved (JObj [("ragId", JStr "kb1");
                          ("documents", JArr [JStr "a.pdf"; JNull])])))
    = (Resolved (reply_500 "Failed to delete documents" details), []).
Proof.
  apply (delete_non_string_name_is_500 (scripted [] "2025-01-01T00:00:00.000Z")
           "secret"
           (JObj [("ragId", JStr "kb1");
                  ("documents", JArr [JStr "a.pdf"; JNull])])
           (JStr "kb1") [JStr "a.pdf"; JNull]);
    try reflexivity.
  right; left; exact I.
Defined.

(** ** Counts and compensation *)



(** When the train call of an upload is answered with a status that is not
    2xx, the reply is a 500 and the remote calls are the parse call and the
    train call only: nothing undoes the parse. *)
Theorem upload_train_failure_not_compensated
    (w : world) (key : string) (formData : FormData)
    (file ragId : FormDataEntryValue) (fileConfig : file_config)
    (parseResponse : Response.t) (parseResult : jsval) (chunks : list jsval)
    (trainResponse : Response.t) :
  Js.truthy_string key = true ->
  required (get "file" formData) = Some file ->
  required (get "ragId" formData) = Some ragId ->
  FILE_TYPE_CONFIG (template (entry_type file)) = Some fileConfig ->
  remote w [] (parse_request key file fileConfig) = Resolved parseResponse ->
  Response.ok parseResponse = true ->
  Response.json parseResponse = Resolved parseResult ->
  prop "documents" parseResult = Some (JArr chunks) ->
  remote w [parse_request key file fileConfig]
    (train_request key ragId chunks) = Resolved trainResponse ->
  Response.ok trainResponse = false ->
  exists res,
    run w [] (POST (Some key) (Resolved formData))
    = (Resolved res,
       [parse_request key file fileConfig; train_request key ragId chunks])
    /\ NextResponse.status res = 500%Z
    /\ prop "success" (NextResponse.body res) = Some (JBool false).
Proof.
  intros Hkey Hfile Hrag Hcfg Hparse Hok Hjson Hdocs Htrain Hfail.
  destruct key; [discriminate Hkey|].
  unfold POST; cbn [await bind try_catch].
  rewrite Hfile, Hrag, Hcfg, run_fetch, Hparse.
  cbn [await bind try_catch]; rewrite Hok, Hjson.
  cbn [negb await bind try_catch].
  destruct parseResult; try discriminate Hdocs.
  cbn [prop] in Hdocs; cbn [parseResult_documents bind try_catch].
  rewrite Hdocs, run_fetch.
  cbn [app]; rewrite Htrain; cbn [await bind try_catch].
  rewrite Hfail; cbn [negb].
  destruct (Response.text trainResponse);
    eexists; split; try reflexivity; split; reflexivity.
Qed.

Lemma upload_train_failure_not_compensated_witness :
  let parsed :=
    Response.make 200 "OK" (Resolved "")
      (Resolved (JObj [("documents", JArr [JStr "chunk1"])])) in
  let failure :=
    Response.make 422 "Unprocessable Entity" (Rejected "aborted")
      (Rejected "aborted") in
  let w := scripted [Resolved parsed; Resolved failure]
             "2025-01-01T00:00:00.000Z" in
  exists res,
    run w [] (POST (Some "secret") (Resolved example_upload))
    = (Resolved res,
       [parse_request "secret"
          (FormFile (File.make "notes.txt" "text/plain" "hello"))
          (mkConfig (Some txt) (Some "txt_parser"));
        train_request "secret" (FormString "kb1") [JStr "chunk1"]])
    /\ NextResponse.status res = 500%Z
    /\ prop "success" (NextResponse.body res) = Some (JBool false).
Proof.
  intros parsed failure w.
  apply (upload_train_failure_not_compensated w "secret" example_upload
           (FormFile (File.make "notes.txt" "text/plain" "hello"))
           (FormString "kb1") (mkConfig (Some txt) (Some "txt_parser"))
           parsed (JObj [("documents", JArr [JStr "chunk1"])])
           [JStr "chunk1"] failure);
    reflexivity.
Defined.

(** ** Names between List and Delete *)

Lemma length_append (a s : string) :
  String.length (a ++ s) = (String.length a + String.length s)%nat.
Proof. induction a as [|c a IH]; simpl; [reflexivity | rewrite IH; reflexivity]. Qed.

Lemma append_longer (a s : string) : a <> "" -> a ++ s <> s.
Proof.
  intros Ha H.
  apply (f_equal String.length) in H.
  rewrite length_append in H.
  destruct a; [congruence | simpl in H; lia].
Qed.

(** Formatting a name for Delete twice is formatting it once, and List
    shows a formatted name as it shows the name itself. *)
Theorem delete_format_idempotent (doc : string) :
  delete_format (delete_format doc) = delete_format doc
  /\ list_fileName (delete_format doc) = list_fileName doc.
Proof.
  split.
  - unfold delete_format at 1.
    rewrite delete_format_prefixed; reflexivity.
  - unfold list_fileName at 1.
    rewrite delete_format_prefixed.
    unfold delete_format, list_fileName.
    destruct (Js.startsWith doc "storage/"); [reflexivity|].
    exact (slice_app "storage/" doc).
Qed.

(** The name that List shows for a remote path leads Delete back to that
    path exactly when the path carries one ['storage/'] prefix: a path
    without the prefix, or with two, cannot be deleted by the name
    listed. *)
Theorem listed_name_deletes_its_path (docPath : string) :
  delete_format (fileName (list_transform docPath)) = docPath
  <-> exactly_one_prefix docPath = true.
Proof.
  unfold list_transform; cbn [fileName].
  unfold exactly_one_prefix, delete_format, list_fileName.
  destruct (Js.startsWith docPath "storage/") eqn:E; cbn [andb].
  - destruct (Js.startsWith (Js.slice 8 docPath) "storage/") eqn:E2;
      cbn [negb]; split; try discriminate; try reflexivity.
    + intros H; exfalso.
      apply (f_equal String.length) in H.
      rewrite length_slice in H.
      apply prefix_length in E; simpl in E; lia.
    + intros _; symmetry.
      exact (prefix_split "storage/" docPath E).
  - rewrite E; split; [|discriminate].
    intros H; exfalso; revert H.
    apply append_longer; discriminate.
Qed.

Lemma lower_char_dot (c : ascii) :
  Ascii.eqb (Js.lower_char c) "." = Ascii.eqb c ".".
Proof. destruct c as [[] [] [] [] [] [] [] []]; reflexivity. Qed.

Lemma lower_char_idempotent (c : ascii) :
  Js.lower_char (Js.lower_char c) = Js.lower_char c.
Proof. destruct c as [[] [] [] [] [] [] [] []]; reflexivity. Qed.

Lemma toLowerCase_idempotent (s : string) :
  Js.toLowerCase (Js.toLowerCase s) = Js.toLowerCase s.
Proof.
  induction s as [|c s IH]; cbn [Js.toLowerCase]; [reflexivity|].
  rewrite lower_char_idempotent, IH; reflexivity.
Qed.

Lemma spec_extension_toLowerCase (name : string) :
  spec_extension (Js.toLowerCase name)
  = option_map Js.toLowerCase (spec_extension name).
Proof.
  induction name as [|c name IH]; cbn [Js.toLowerCase spec_extension];
    [reflexivity|].
  rewrite IH, lower_char_dot.
  destruct (spec_extension name); cbn [option_map]; [reflexivity|].
  destruct (Ascii.eqb c "."); reflexivity.
Qed.

(** The type List gives to a file name does not depend on the case of its
    letters. *)
Theorem list_fileType_ignores_case (name : string) :
  list_fileType (Js.toLowerCase name) = list_fileType name.
Proof.
  rewrite !list_fileType_eq, spec_extension_toLowerCase.
  destruct (spec_extension name); cbn [option_map];
    rewrite toLowerCase_idempotent; reflexivity.
Qed.

(** ** The client *)

(** A type the client supports has its entry in [FILE_TYPE_CONFIG]. *)
Lemma supported_type_config (mime : string) :
  isFileTypeSupported mime = true ->
  exists t parser,
    getFileTypeFromMime mime = Some t
    /\ FILE_TYPE_CONFIG mime = Some (mkConfig (Some t) (Some parser)).
Proof.
  unfold getFileTypeFromMime, isFileTypeSupported, FILE_TYPE_CONFIG.
  cbn [existsb SUPPORTED_FILE_TYPES].
  destruct (String.eqb mime "application/pdf"); [eauto|].
  destruct (String.eqb mime
    "application/vnd.openxmlformats-officedocument.wordprocessingml.document");
    [eauto|].
  destruct (String.eqb mime "text/plain"); [eauto | discriminate].
Qed.

(** The client and the route support the same three MIME types, with the
    same file type for each: what [getFileTypeFromMime] knows,
    [isFileTypeSupported] accepts and [FILE_TYPE_CONFIG] holds with that
    type; what it does not know, [isFileTypeSupported] refuses. *)
Theorem client_types_agree_with_route (mime : string) :
  match getFileTypeFromMime mime with
  | Some t =>
      isFileTypeSupported mime = true
      /\ exists parser,
           FILE_TYPE_CONFIG mime = Some (mkConfig (Some t) (Some parser))
  | None => isFileTypeSupported mime = false
  end.
Proof.
  unfold getFileTypeFromMime, isFileTypeSupported, FILE_TYPE_CONFIG.
  cbn [existsb SUPPORTED_FILE_TYPES].
  destruct (String.eqb mime "application/pdf"); [split; eauto|].
  destruct (String.eqb mime
    "application/vnd.openxmlformats-officedocument.wordprocessingml.document");
    [split; eauto|].
  destruct (String.eqb mime "text/plain"); [split; eauto|].
  reflexivity.
Qed.

Lemma sent_to_route_query (rest method : string)
    (hs : list (string * string)) (b : fetch_body) :
  get "x-api-key" hs = None ->
  sent_to_route (mkFetch (API_ROUTE ++ rest) method hs b).
Proof.
  intros H; split; [|exact H].
  apply prefix_self_app.
Qed.

Ltac client_step :=
  match goal with
  | |- result_well_formed (Data _) => exact I
  | |- result_well_formed _ => cbn [result_well_formed]; discriminate
  | |- sent_to_route (getDocuments_request _) =>
      apply sent_to_route_query; reflexivity
  | |- sent_to_route _ => split; reflexivity
  end.

(** Every run of [getDocuments]. *)
Lemma getDocuments_bounded (ragId : string) :
  bounded result_well_formed (fun _ => False) sent_to_route 1
    (getDocuments ragId).
Proof.
  unfold getDocuments, read_response, read_property, client_catch.
  repeat handler_step; try client_step.
Qed.

(** Every run of [uploadAndTrainDocument]. *)
Lemma uploadAndTrainDocument_bounded (ragId : string) (file : File.t) :
  bounded result_well_formed (fun _ => False) sent_to_route 1
    (uploadAndTrainDocument ragId file).
Proof.
  unfold uploadAndTrainDocument, read_response, read_property, client_catch,
    validateFile.
  destruct (isFileTypeSupported (File.type file));
    cbn [negb isValid validation_error option_map];
    repeat handler_step; try client_step.
Qed.

(** Every run of [deleteDocuments]. *)
Lemma deleteDocuments_bounded (ragId : string) (documents : list string) :
  bounded result_well_formed (fun _ => False) sent_to_route 1
    (deleteDocuments ragId documents).
Proof.
  unfold deleteDocuments, read_response, read_property, client_catch.
  repeat handler_step; try client_step.
Qed.

(** The three functions of the client never reject: they resolve to the
    data of the route or to a failure that names its error.  Each makes one
    call at most, to the route and without any [x-api-key]: the credential
    never leaves the server. *)
Theorem client_resolves_with_one_call
    (w : world) (ragId : string) (file : File.t) (documents : list string) :
  (exists r calls,
      run w [] (getDocuments ragId) = (Resolved r, calls)
      /\ result_well_formed r
      /\ (List.length calls <= 1)%nat /\ Forall sent_to_route calls)
  /\ (exists r calls,
         run w [] (uploadAndTrainDocument ragId file) = (Resolved r, calls)
         /\ result_well_formed r
         /\ (List.length calls <= 1)%nat /\ Forall sent_to_route calls)
  /\ (exists r calls,
         run w [] (deleteDocuments ragId documents) = (Resolved r, calls)
         /\ result_well_formed r
         /\ (List.length calls <= 1)%nat /\ Forall sent_to_route calls).
Proof.
  split; [|split].
  - destruct (bounded_run _ _ _ w _ _ (getDocuments_bounded ragId) [])
      as (rest & Hcalls & Hlen & Hall & Hout).
    destruct (run w [] (getDocuments ragId)) as [[r|e] calls];
      cbn [fst snd] in *; [|contradiction].
    subst calls; exists r, rest; auto.
  - destruct (bounded_run _ _ _ w _ _
                (uploadAndTrainDocument_bounded ragId file) [])
      as (rest & Hcalls & Hlen & Hall & Hout).
    destruct (run w [] (uploadAndTrainDocument ragId file)) as [[r|e] calls];
      cbn [fst snd] in *; [|contradiction].
    subst calls; exists r, rest; auto.
  - destruct (bounded_run _ _ _ w _ _
                (deleteDocuments_bounded ragId documents) [])
      as (rest & Hcalls & Hlen & Hall & Hout).
    destruct (run w [] (deleteDocuments ragId documents)) as [[r|e] calls];
      cbn [fst snd] in *; [|contradiction].
    subst calls; exists r, rest; auto.
Qed.

(** The client refuses, without calling the route: an empty [ragId], a file
    whose type is not one of the three supported ones, and an empty list of
    documents. *)
Theorem client_guards_make_no_call
    (w : world) (ragId : string) (file : File.t) (documents : list string) :
  run w [] (getDocuments "")
  = (Resolved (Failure (Some (JStr "ragId is required")) None), [])
  /\ run w [] (uploadAndTrainDocument "" file)
     = (Resolved (Failure (Some (JStr "ragId is required")) None), [])
  /\ run w [] (deleteDocuments "" documents)
     = (Resolved (Failure (Some (JStr "ragId is required")) None), [])
  /\ (Js.truthy_string ragId = true ->
      isFileTypeSupported (File.type file) = false ->
      run w [] (uploadAndTrainDocument ragId file)
      = (Resolved (Failure
                     (Some (JStr ("Unsupported file type: " ++ File.type file
                                  ++ ". Only PDF, DOCX, and TXT files are supported.")))
                     None),
         []))
  /\ (Js.truthy_string ragId = true ->
      run w [] (deleteDocuments ragId [])
      = (Resolved (Failure
                     (Some (JStr "documents array is required and must not be empty"))
                     None),
         [])).
Proof.
  repeat split.
  - intros Hrag Htype.
    unfold uploadAndTrainDocument, validateFile.
    rewrite Hrag, Htype; reflexivity.
  - intros Hrag.
    unfold deleteDocuments; rewrite Hrag; reflexivity.
Qed.

Lemma client_guards_make_no_call_witness :
  let w := scripted [] "2025-01-01T00:00:00.000Z" in
  let file := File.make "a.png" "image/png" "PNG" in
  run w [] (uploadAndTrainDocument "kb1" file)
  = (Resolved (Failure
                 (Some (JStr "Unsupported file type: image/png. Only PDF, DOCX, and TXT files are supported."))
                 None),
     [])
  /\ run w [] (deleteDocuments "kb1" [])
     = (Resolved (Failure
                    (Some (JStr "documents array is required and must not be empty"))
                    None),
        []).
Proof.
  intros w file.
  destruct (client_guards_make_no_call w "kb1" file [])
    as (_ & _ & _ & Hupload & Hdelete).
  split; [apply Hupload | apply Hdelete]; reflexivity.
Defined.

(** What [getDocuments] reports of an answer that is not 2xx and does not
    name its error: ['Unknown error'] when the body is not JSON, the status
    when the body is an object without a truthy [error], and the failure of
    its own [catch] when the body is [null]. *)
Theorem getDocuments_error_fallbacks
    (w : world) (ragId : string) (response : Response.t) :
  Js.truthy_string ragId = true ->
  remote w [] (getDocuments_request ragId) = Resolved response ->
  Response.ok response = false ->
  ((exists message, Response.json response = Rejected message) ->
   fst (run w [] (getDocuments ragId))
   = Resolved (Failure (Some (JStr "Unknown error")) None))
  /\ (forall fields,
         Response.json response = Resolved (JObj fields) ->
         (forall v, field "error" fields = Some v -> truthy v = false) ->
         fst (run w [] (getDocuments ragId))
         = Resolved (Failure
                       (Some (JStr ("API returned status "
                                    ++ Number_toString (Response.status response))))
                       (field "details" fields)))
  /\ (Response.json response = Resolved JNull ->
      fst (run w [] (getDocuments ragId))
      = Resolved (Failure (Some (JStr "Failed to get documents"))
                    (Some (JStr (reading_null "error"))))).
Proof.
  intros Hrag Hremote Hok.
  unfold getDocuments; rewrite Hrag; cbn [negb].
  rewrite run_fetch, Hremote; cbn [await bind try_catch].
  unfold read_response; rewrite Hok.
  split; [|split].
  - intros [message ->]; reflexivity.
  - intros fields -> Herror.
    cbn [read_property bind try_catch run fst].
    do 3 f_equal.
    unfold or_else.
    destruct (field "error" fields) as [v|] eqn:E; [|reflexivity].
    rewrite (Herror v eq_refl); reflexivity.
  - intros ->; reflexivity.
Qed.

Lemma getDocuments_error_fallbacks_witness :
  let gateway := Response.make 502 "Bad Gateway" (Resolved "<html>")
                   (Rejected "Unexpected token") in
  let bare := Response.make 503 "Service Unavailable" (Resolved "{}")
                (Resolved (JObj [])) in
  fst (run (scripted [Resolved gateway] "2025-01-01T00:00:00.000Z") []
         (getDocuments "kb1"))
  = Resolved (Failure (Some (JStr "Unknown error")) None)
  /\ fst (run (scripted [Resolved bare] "2025-01-01T00:00:00.000Z") []
            (getDocuments "kb1"))
     = Resolved (Failure (Some (JStr "API returned status 503")) None).
Proof.
  intros gateway bare; split.
  - destruct (getDocuments_error_fallbacks
                (scripted [Resolved gateway] "2025-01-01T00:00:00.000Z")
                "kb1" gateway eq_refl eq_refl eq_refl) as (H & _ & _).
    apply H; eexists; reflexivity.
  - destruct (getDocuments_error_fallbacks
                (scripted [Resolved bare] "2025-01-01T00:00:00.000Z")
                "kb1" bare eq_refl eq_refl eq_refl) as (_ & H & _).
    apply (H []); [reflexivity | discriminate].
Defined.

(** ** The client and the route together *)

(** Of a well-formed reply of the route, the lines the client functions
    share make the data of the reply when it is a success and the failure
    the reply names otherwise. *)
Lemma read_response_of_reply (res : NextResponse.t) (response : Response.t) :
  reply_well_formed res ->
  delivers res response ->
  read_response response = Return (result_of_reply res).
Proof.
  intros Hres [Hstatus Hjson].
  unfold read_response, result_of_reply, Response.ok.
  rewrite Hstatus, Hjson.
  change ((200 <=? NextResponse.status res)%Z
          && (NextResponse.status res <=? 299)%Z)
    with (status_ok (NextResponse.status res)).
  destruct Hres as [[_ H200] | (Hsuccess & Hnot_ok & e & Herror & He)].
  - rewrite H200; reflexivity.
  - rewrite Hnot_ok.
    destruct (NextResponse.body res); try discriminate Hsuccess.
    cbn [prop] in *; cbn [read_property bind].
    rewrite Herror; cbn [or_else truthy]; rewrite He.
    reflexivity.
Qed.

Lemma reply_of_run {A : Type} (Q : A -> Prop) (P : fetch_request -> Prop)
    (w : world) (n : nat) (m : route A) (a : A) :
  bounded Q (fun _ => False) P n m ->
  fst (run w [] m) = Resolved a -> Q a.
Proof.
  intros Hm Hrun.
  destruct (bounded_run _ _ _ w _ _ Hm []) as (_ & _ & _ & _ & H).
  rewrite Hrun in H; exact H.
Qed.

(** When the browser receives the reply of a handler (its status and its
    JSON body), the client function resolves to the data of the reply if it
    is a success, and otherwise to a failure with the [error] and the
    [details] of the reply: the route always names its error, so the client
    never falls back on ['Unknown error'] or on the status. *)
Theorem client_returns_reply_of_route :
  (forall (browser w : world) (ragId : string) (key : option string)
          (searchParams : list (string * string))
          (res : NextResponse.t) (response : Response.t),
      Js.truthy_string ragId = true ->
      fst (run w [] (GET key searchParams)) = Resolved res ->
      remote browser [] (getDocuments_request ragId) = Resolved response ->
      delivers res response ->
      fst (run browser [] (getDocuments ragId))
      = Resolved (result_of_reply res))
  /\ (forall (browser w : world) (ragId : string) (file : File.t)
             (key : option string) (formData : settled FormData)
             (res : NextResponse.t) (response : Response.t),
      Js.truthy_string ragId = true ->
      isFileTypeSupported (File.type file) = true ->
      fst (run w [] (POST key formData)) = Resolved res ->
      remote browser [] (uploadAndTrainDocument_request ragId file)
      = Resolved response ->
      delivers res response ->
      fst (run browser [] (uploadAndTrainDocument ragId file))
      = Resolved (result_of_reply res))
  /\ (forall (browser w : world) (ragId : string) (documents : list string)
             (key : option string) (payload : settled jsval)
             (res : NextResponse.t) (response : Response.t),
      Js.truthy_string ragId = true ->
      documents <> [] ->
      fst (run w [] (DELETE key payload)) = Resolved res ->
      remote browser [] (deleteDocuments_request ragId documents)
      = Resolved response ->
      delivers res response ->
      fst (run browser [] (deleteDocuments ragId documents))
      = Resolved (result_of_reply res)).
Proof.
  split; [|split].
  - intros browser w ragId key searchParams res response
      Hrag Hrun Hremote Hdelivers.
    pose proof (reply_of_run _ _ w _ _ res (GET_bounded key searchParams) Hrun)
      as Hres.
    unfold getDocuments; rewrite Hrag; cbn [negb].
    rewrite run_fetch, Hremote; cbn [await bind].
    rewrite (read_response_of_reply res response Hres Hdelivers).
    reflexivity.
  - intros browser w ragId file key formData res response
      Hrag Htype Hrun Hremote Hdelivers.
    pose proof (reply_of_run _ _ w _ _ res (POST_bounded key formData) Hrun)
      as [Hres _].
    unfold uploadAndTrainDocument, validateFile.
    rewrite Hrag, Htype; cbn [negb isValid].
    rewrite run_fetch, Hremote; cbn [await bind].
    rewrite (read_response_of_reply res response Hres Hdelivers).
    reflexivity.
  - intros browser w ragId documents key payload res response
      Hrag Hdocs Hrun Hremote Hdelivers.
    pose proof (reply_of_run _ _ w _ _ res (DELETE_bounded key payload) Hrun)
      as Hres.
    unfold deleteDocuments; rewrite Hrag; cbn [negb].
    destruct documents as [|d ds]; [congruence|].
    rewrite run_fetch, Hremote; cbn [await bind].
    rewrite (read_response_of_reply res response Hres Hdelivers).
    reflexivity.
Qed.

Lemma client_returns_reply_of_route_witness :
  let not_found := Response.make 404 "Not Found" (Resolved "")
                     (Rejected "Unexpected end of JSON input") in
  let w := scripted [Resolved not_found] "2025-01-01T00:00:00.000Z" in
  let browser_of (res : NextResponse.t) :=
    scripted [Resolved (Response.make (NextResponse.status res) ""
                          (Resolved "") (Resolved (NextResponse.body res)))]
      "2025-01-01T00:00:01.000Z" in
  let empty := NextResponse.make
                 (JObj [("success", JBool true); ("documents", JArr [])]) 200 in
  fst (run (browser_of empty) [] (getDocuments "kb1"))
  = Resolved (Data (JObj [("success", JBool true); ("documents", JArr [])]))
  /\ fst (run (browser_of config_error) []
            (uploadAndTrainDocument "kb1"
               (File.make "notes.txt" "text/plain" "hello")))
     = Resolved (Failure
                   (Some (JStr "LYZR_API_KEY not configured in .env.local"))
                   None)
  /\ fst (run (browser_of config_error) [] (deleteDocuments "kb1" ["a.pdf"]))
     = Resolved (Failure
                   (Some (JStr "LYZR_API_KEY not configured in .env.local"))
                   None).
Proof.
  intros not_found w browser_of empty.
  destruct client_returns_reply_of_route as (Hget & Hupload & Hdelete).
  split; [|split].
  - apply (Hget (browser_of empty) w "kb1" (Some "secret") [("ragId", "kb1")]
             empty
             (Response.make 200 "" (Resolved "")
                (Resolved (NextResponse.body empty))));
      try reflexivity.
    split; reflexivity.
  - apply (Hupload (browser_of config_error) w "kb1"
             (File.make "notes.txt" "text/plain" "hello")
             None (Resolved example_upload) config_error
             (Response.make 500 "" (Resolved "")
                (Resolved (NextResponse.body config_error))));
      try reflexivity.
    split; reflexivity.
  - apply (Hdelete (browser_of config_error) w "kb1" ["a.pdf"]
             None (Resolved JNull) config_error
             (Response.make 500 "" (Resolved "")
                (Resolved (NextResponse.body config_error))));
      try reflexivity; try discriminate.
    split; reflexivity.
Defined.

Lemma read_response_settles (response : Response.t) :
  (exists r, read_response response = Return r)
  \/ (exists e, read_response response = Throw e).
Proof.
  unfold read_response.
  destruct (Response.ok response).
  - destruct (Response.json response); cbn; eauto.
  - destruct (Response.json response) as [[]|]; cbn; eauto.
Qed.

(** One call exactly, once the guards of a client function are passed. *)
Lemma client_calls_once (w : world) (req : fetch_request) (error : string) :
  snd (run w [] (try_catch (response <- fetch req ;; read_response response)
                   (client_catch error)))
  = [req].
Proof.
  rewrite run_fetch.
  destruct (remote w [] req) as [response|e]; cbn [await bind try_catch];
    [|reflexivity].
  destruct (read_response_settles response) as [[r ->] | [e ->]];
    reflexivity.
Qed.

(** What the client sends passes the checks of the route.  An upload that
    [uploadAndTrainDocument] sends reaches, under a configured credential,
    the parse call for the type the client computed; a list of names that
    [deleteDocuments] sends reaches the remote delete call, each name
    formatted. *)
Theorem client_requests_pass_validation :
  (forall (browser w : world) (ragId key : string) (file : File.t)
          (formData : FormData),
      Js.truthy_string ragId = true ->
      isFileTypeSupported (File.type file) = true ->
      Js.truthy_string key = true ->
      body (uploadAndTrainDocument_request ragId file) = FormBody formData ->
      snd (run browser [] (uploadAndTrainDocument ragId file))
      = [uploadAndTrainDocument_request ragId file]
      /\ exists t parser rest,
           getFileTypeFromMime (File.type file) = Some t
           /\ snd (run w [] (POST (Some key) (Resolved formData)))
              = parse_request key (FormFile file)
                  (mkConfig (Some t) (Some parser)) :: rest)
  /\ (forall (browser w : world) (ragId key : string)
             (documents : list string) (payload : jsval),
      Js.truthy_string ragId = true ->
      documents <> [] ->
      Js.truthy_string key = true ->
      body (deleteDocuments_request ragId documents) = JsonBody payload ->
      snd (run browser [] (deleteDocuments ragId documents))
      = [deleteDocuments_request ragId documents]
      /\ snd (run w [] (DELETE (Some key) (Resolved payload)))
         = [delete_request key (JStr ragId) (map delete_format documents)]).
Proof.
  split.
  - intros browser w ragId key file formData Hrag Htype Hkey Hbody.
    injection Hbody as <-.
    split.
    + unfold uploadAndTrainDocument, validateFile.
      rewrite Hrag, Htype; cbn [negb isValid].
      apply client_calls_once.
    + destruct (supported_type_config (File.type file) Htype)
        as (t & parser & Ht & Hcfg).
      assert (Hfield : required (get "ragId"
                          [("file", FormFile file); ("ragId", FormString ragId)])
                       = Some (FormString ragId)).
      { unfold required; cbn [get String.eqb Ascii.eqb Bool.eqb truthy_entry].
        rewrite Hrag; reflexivity. }
      destruct (upload_calls_parse w key
                  [("file", FormFile file); ("ragId", FormString ragId)]
                  (FormFile file) (FormString ragId)
                  (mkConfig (Some t) (Some parser)) Hkey eq_refl Hfield Hcfg)
        as [rest Hcalls].
      exists t, parser, rest; split; [exact Ht | exact Hcalls].
  - intros browser w ragId key documents payload Hrag Hdocs Hkey Hbody.
    injection Hbody as <-.
    split.
    + unfold deleteDocuments; rewrite Hrag; cbn [negb].
      destruct documents; [congruence|].
      apply client_calls_once.
    + apply delete_calls_remote; try assumption; reflexivity.
Qed.

Lemma client_requests_pass_validation_witness :
  let browser := scripted [] "2025-01-01T00:00:01.000Z" in
  let w := scripted [] "2025-01-01T00:00:00.000Z" in
  let file := File.make "report.pdf" "application/pdf" "%PDF-1.7" in
  (snd (run browser [] (uploadAndTrainDocument "kb1" file))
   = [uploadAndTrainDocument_request "kb1" file]
   /\ exists t parser rest,
        getFileTypeFromMime (File.type file) = Some t
        /\ snd (run w [] (POST (Some "secret")
                            (Resolved [("file", FormFile file);
                                       ("ragId", FormString "kb1")])))
           = parse_request "secret" (FormFile file)
               (mkConfig (Some t) (Some parser)) :: rest)
  /\ (snd (run browser [] (deleteDocuments "kb1" ["a.pdf"]))
      = [deleteDocuments_request "kb1" ["a.pdf"]]
      /\ snd (run w [] (DELETE (Some "secret")
                          (Resolved (JObj [("ragId", JStr "kb1");
                                           ("documents", JArr [JStr "a.pdf"])]))))
         = [delete_request "secret" (JStr "kb1") ["storage/a.pdf"]]).
Proof.
  intros browser w file.
  destruct client_requests_pass_validation as [Hupload Hdelete].
  split.
  - apply (Hupload browser w "kb1" "secret" file); reflexivity.
  - apply (Hdelete browser w "kb1" "secret" ["a.pdf"]);
      try reflexivity; discriminate.
Defined.

(** ** More on the replies of the route *)

(** The reply of an upload whose two remote calls succeed echoes the name
    of the file, the type of its configuration and the [ragId], and counts
    the chunks parsed; an empty list of chunks is trained and counted like
    any other. *)
Theorem upload_success_reply
    (w : world) (key : string) (formData : FormData) (f : File.t)
    (ragId : string) (t : file_type) (parser : string)
    (parseResponse : Response.t) (parseResult : jsval) (chunks : list jsval)
    (trainResponse : Response.t) :
  Js.truthy_string key = true ->
  required (get "file" formData) = Some (FormFile f) ->
  required (get "ragId" formData) = Some (FormString ragId) ->
  FILE_TYPE_CONFIG (File.type f) = Some (mkConfig (Some t) (Some parser)) ->
  remote w [] (parse_request key (FormFile f) (mkConfig (Some t) (Some parser)))
  = Resolved parseResponse ->
  Response.ok parseResponse = true ->
  Response.json parseResponse = Resolved parseResult ->
  prop "documents" parseResult = Some (JArr chunks) ->
  remote w [parse_request key (FormFile f) (mkConfig (Some t) (Some parser))]
    (train_request key (FormString ragId) chunks) = Resolved trainResponse ->
  Response.ok trainResponse = true ->
  fst (run w [] (POST (Some key) (Resolved formData)))
  = Resolved (NextResponse.make
                (JObj [("success", JBool true);
                       ("message", JStr "Document uploaded and trained successfully");
                       ("fileName", JStr (File.name f));
                       ("fileType", JStr (file_type_name t));
                       ("documentCount", JNum (Z.of_nat (List.length chunks)));
                       ("ragId", JStr ragId);
                       ("timestamp", JStr (clock w))])
                200).
Proof.
  intros Hkey Hfile Hrag Hcfg Hparse Hok Hjson Hdocs Htrain Htrain_ok.
  erewrite upload_success by eassumption.
  reflexivity.
Qed.

Lemma upload_success_reply_witness :
  let parsed := Response.make 200 "OK" (Resolved "")
                  (Resolved (JObj [("documents", JArr [])])) in
  let trained := Response.make 200 "OK" (Resolved "") (Resolved JNull) in
  let w := scripted [Resolved parsed; Resolved trained]
             "2025-01-01T00:00:00.000Z" in
  fst (run w [] (POST (Some "secret") (Resolved example_upload)))
  = Resolved (NextResponse.make
                (JObj [("success", JBool true);
                       ("message", JStr "Document uploaded and trained successfully");
                       ("fileName", JStr "notes.txt");
                       ("fileType", JStr "txt");
                       ("documentCount", JNum 0);
                       ("ragId", JStr "kb1");
                       ("timestamp", JStr "2025-01-01T00:00:00.000Z")])
                200).
Proof.
  intros parsed trained w.
  apply (upload_success_reply w "secret" example_upload
           (File.make "notes.txt" "text/plain" "hello") "kb1" txt "txt_parser"
           parsed (JObj [("documents", JArr [])]) [] trained);
    reflexivity.
Defined.

(** A credential that is set but empty is a missing credential: the three
    handlers answer the configuration error and make no remote call. *)
Theorem empty_credential_is_missing
    (w : world) (searchParams : list (string * string))
    (formData : settled FormData) (payload : settled jsval) :
  run w [] (GET (Some "") searchParams) = (Resolved config_error, [])
  /\ run w [] (POST (Some "") formData) = (Resolved config_error, [])
  /\ run w [] (DELETE (Some "") payload) = (Resolved config_error, []).
Proof. repeat split. Qed.

(** ** Statuses a reply cannot have *)

Lemma json_refused (b : jsval) (s : Z) :
  NextResponse.allows s = false ->
  exists message, NextResponse.json b s = Rejected message.
Proof.
  unfold NextResponse.allows, NextResponse.json; intros H.
  destruct ((200 <=? s)%Z && (s <=? 599)%Z); cbn [negb andb] in *;
    [|eauto].
  apply negb_false_iff in H; rewrite H; eauto.
Qed.



(** ** Numbers in text *)

(** Numbers print as the language prints them: in full below 2^53, as the
    nearest double with its shortest digits beyond, and in exponent form
    from 10^21 on. *)
Example Number_toString_examples :
  map Number_toString
    [0; 503; -5; 2 ^ 53 + 1; 2 ^ 60; 10 ^ 21; -(10 ^ 21); 2 ^ 70; 10 ^ 23]%Z
  = ["0"; "503"; "-5"; "9007199254740992"; "1152921504606847000";
     "1e+21"; "-1e+21"; "1.1805916207174113e+21"; "1e+23"].
Proof. vm_compute; reflexivity. Qed.

Example ToString_examples :
  map ToString
    [JNull; JBool true; JNum (10 ^ 21); JStr "kb1";
     JArr [JNum 1; JNull; JArr [JStr "a"; JNum (-2)]]; JObj []]
  = ["null"; "true"; "1e+21"; "kb1"; "1,,a,-2"; "[object Object]"].
Proof. vm_compute; reflexivity. Qed.
